(** * The authentication session manager and the gateway RPC client

    A shallow embedding of
    - [frontend/src/services/cyberark-auth.js] (class [CyberArkAuth]),
    - [frontend/src/api-gateway.js] (the JSON-RPC client),
    - the reference implementation of [CyberArkAuth] printed in the gateway
      setup guide (the variant with PKCE and a refresh operation) and the
      gateway client [invokeGateway] printed beside it,
    - [frontend/src/components/Callback.jsx] (the effect run on mount), and
    - [App.jsx] (its state, its handlers and which view it renders),
    followed by the properties of the specification that concern them and by
    further properties of the same code.

    Browser state ([localStorage], [sessionStorage]) is a pair of finite maps
    from strings to strings; every method is a computation in a small
    state-and-exception monad over that state and a log of the effects that
    leave the page (navigation, [fetch]).  What the environment answers (the
    clock, the random source, the query string of the page, the outcome of a
    [fetch]) is an argument of the method that asks for it.

    Conventions.  Strings are sequences of bytes and numbers are integers or
    NaN, so a length counts bytes and arithmetic is exact.  Console output is
    not part of the state.  A storage write always succeeds.  The URL a
    navigation goes to is kept as its endpoint and its list of parameters,
    before encoding. *)

From Stdlib Require Import ZArith String Ascii List Bool Lia.
From Stdlib Require Import Decimal DecimalString DecimalZ Hexadecimal.
From Stdlib.Strings Require Byte.
From stdpp Require Import base option gmap strings.

Local Open Scope string_scope.
Local Open Scope Z_scope.

(* ===================================================================== *)
(** ** JavaScript values, coercions and built-ins                        *)
(* ===================================================================== *)

Module Js.

(** Values of the dynamically typed fragment the client manipulates.  Numbers
    are integers ([Date.now()], [expires_in], array lengths); a number that is
    [NaN] is [None] at type [number]. *)
#[local] Unset Elimination Schemes.
Inductive jsval : Type :=
| JUndefined
| JNull
| JBool (b : bool)
| JNum (n : Z)
| JStr (s : string)
| JArr (elems : list jsval)
| JObj (fields : list (string * jsval)).
#[local] Set Elimination Schemes.

Definition number : Type := option Z.
Definition NaN : number := None.

(** Exceptions, one constructor per [throw] site of the two modules, plus the
    three the runtime raises by itself. *)
Inductive exn : Type :=
| OAuthError (error : string)            (* `OAuth error: ${error}` *)
| NoAuthorizationCode                    (* 'No authorization code received' *)
| InvalidState                           (* 'Invalid state parameter - possible CSRF attack' *)
| TokenExchangeFailed (errorText : string) (* `Token exchange failed: ${errorText}` *)
| AuthenticationRequired                 (* 'Authentication required' *)
| SessionExpired                         (* 'Session expired, please log in again' *)
| GatewayHttp (status : Z) (errorText : string) (* `Gateway error ${status}: ${errorText}` *)
| GatewayRpc (detail : string)           (* `Gateway error: ${...}` *)
| InvalidResponseFormat                  (* 'Invalid response format from agent' *)
| GuideInvalidState                      (* guide: 'Invalid state parameter' *)
| GuideTokenExchangeFailed               (* guide: 'Token exchange failed' *)
| TypeError (msg : string)               (* property read on null/undefined, failed fetch *)
| SyntaxError (msg : string).            (* body that is not JSON *)

Inductive Result (A : Type) : Type :=
| Ok (a : A)
| Throw (e : exn).
Arguments Ok {A} a.
Arguments Throw {A} e.

(** *** Number to string and back *)

(** [Number.prototype.toString] on an integer: decimal digits, a leading
    minus sign for negatives, ["NaN"] for NaN. *)
Definition Z_toString (n : Z) : string := NilZero.string_of_int (Z.to_int n).

Definition Number_toString (n : number) : string :=
  match n with
  | Some z => Z_toString z
  | None => "NaN"
  end.

(** The white space [parseInt] skips, among the ASCII characters: tab, line
    feed, vertical tab, form feed, carriage return and space. *)
Definition is_white (c : ascii) : bool :=
  let n := N_of_ascii c in
  ((9 <=? n) && (n <=? 13))%N || (n =? 32)%N.

Fixpoint trim_start (s : string) : string :=
  match s with
  | String c s' => if is_white c then trim_start s' else s
  | EmptyString => s
  end.

(** The longest prefix of decimal digits, as a decimal numeral. *)
Fixpoint dec_prefix (s : string) : Decimal.uint :=
  match s with
  | String "0"%char s' => Decimal.D0 (dec_prefix s')
  | String "1"%char s' => Decimal.D1 (dec_prefix s')
  | String "2"%char s' => Decimal.D2 (dec_prefix s')
  | String "3"%char s' => Decimal.D3 (dec_prefix s')
  | String "4"%char s' => Decimal.D4 (dec_prefix s')
  | String "5"%char s' => Decimal.D5 (dec_prefix s')
  | String "6"%char s' => Decimal.D6 (dec_prefix s')
  | String "7"%char s' => Decimal.D7 (dec_prefix s')
  | String "8"%char s' => Decimal.D8 (dec_prefix s')
  | String "9"%char s' => Decimal.D9 (dec_prefix s')
  | _ => Decimal.Nil
  end.

(** The longest prefix of hexadecimal digits (either case). *)
Fixpoint hex_prefix (s : string) : Hexadecimal.uint :=
  match s with
  | String "0"%char s' => Hexadecimal.D0 (hex_prefix s')
  | String "1"%char s' => Hexadecimal.D1 (hex_prefix s')
  | String "2"%char s' => Hexadecimal.D2 (hex_prefix s')
  | String "3"%char s' => Hexadecimal.D3 (hex_prefix s')
  | String "4"%char s' => Hexadecimal.D4 (hex_prefix s')
  | String "5"%char s' => Hexadecimal.D5 (hex_prefix s')
  | String "6"%char s' => Hexadecimal.D6 (hex_prefix s')
  | String "7"%char s' => Hexadecimal.D7 (hex_prefix s')
  | String "8"%char s' => Hexadecimal.D8 (hex_prefix s')
  | String "9"%char s' => Hexadecimal.D9 (hex_prefix s')
  | String "a"%char s' | String "A"%char s' => Hexadecimal.Da (hex_prefix s')
  | String "b"%char s' | String "B"%char s' => Hexadecimal.Db (hex_prefix s')
  | String "c"%char s' | String "C"%char s' => Hexadecimal.Dc (hex_prefix s')
  | String "d"%char s' | String "D"%char s' => Hexadecimal.Dd (hex_prefix s')
  | String "e"%char s' | String "E"%char s' => Hexadecimal.De (hex_prefix s')
  | String "f"%char s' | String "F"%char s' => Hexadecimal.Df (hex_prefix s')
  | _ => Hexadecimal.Nil
  end.

(** The digits of [parseInt], after white space and sign were removed: a
    ["0x"]/["0X"] prefix selects radix 16, anything else radix 10; no digit
    at all is NaN. *)
Definition parse_magnitude (s : string) : number :=
  match s with
  | String "0"%char (String "x"%char s')
  | String "0"%char (String "X"%char s') =>
      match hex_prefix s' with
      | Hexadecimal.Nil => NaN
      | h => Some (Z.of_hex_uint h)
      end
  | _ =>
      match dec_prefix s with
      | Decimal.Nil => NaN
      | d => Some (Z.of_uint d)
      end
  end.

(** [parseInt(s)] with no radix argument. *)
Definition parseInt (s : string) : number :=
  match trim_start s with
  | String "-"%char s' => Z.opp <$> parse_magnitude s'
  | String "+"%char s' => parse_magnitude s'
  | s' => parse_magnitude s'
  end.

(** [a < b] on numbers: false as soon as one side is NaN. *)
Definition lt (a b : number) : bool :=
  match a, b with
  | Some x, Some y => x <? y
  | _, _ => false
  end.

(** [a >= b] on numbers: false as soon as one side is NaN. *)
Definition ge (a b : number) : bool :=
  match a, b with
  | Some x, Some y => y <=? x
  | _, _ => false
  end.

(** *** Truthiness and [ToString] *)

Definition truthy (v : jsval) : bool :=
  match v with
  | JUndefined | JNull => false
  | JBool b => b
  | JNum n => negb (n =? 0)
  | JStr s => negb (String.eqb s "")
  | JArr _ | JObj _ => true
  end.

(** Truthiness of what [Storage.getItem] and [URLSearchParams.get] return: a
    string or [null]. *)
Definition truthy_str (o : option string) : bool :=
  match o with
  | Some s => negb (String.eqb s "")
  | None => false
  end.

Definition nullish (v : jsval) : bool :=
  match v with
  | JUndefined | JNull => true
  | _ => false
  end.

Fixpoint join (sep : string) (l : list string) : string :=
  match l with
  | [] => ""
  | [x] => x
  | x :: rest => x +:+ sep +:+ join sep rest
  end.

(** [String(v)], as a template literal or [Storage.setItem] applies it. *)
Fixpoint ToString (v : jsval) : string :=
  match v with
  | JUndefined => "undefined"
  | JNull => "null"
  | JBool true => "true"
  | JBool false => "false"
  | JNum n => Z_toString n
  | JStr s => s
  | JArr l =>
      join "," (map (fun e => if nullish e then "" else ToString e) l)
  | JObj _ => "[object Object]"
  end.

(** [String(x)] for a value that is a string or [undefined]. *)
Definition ToString_opt (o : option string) : string :=
  match o with
  | Some s => s
  | None => "undefined"
  end.

(** *** Property reads *)

(** Own property of an object literal; a key written twice keeps its last
    value. *)
Definition own (fields : list (string * jsval)) (key : string) : jsval :=
  fold_left (fun found '(k, v) => if String.eqb k key then v else found)
            fields JUndefined.

Definition str_length (s : string) : Z := Z.of_nat (String.length s).

(** [v.key] for the keys the client reads ([content], [text], [output],
    [error], [message], [result], [tools], [length]). *)
Definition get (v : jsval) (key : string) : Result jsval :=
  match v with
  | JUndefined =>
      Throw (TypeError ("Cannot read properties of undefined (reading '" +:+ key +:+ "')"))
  | JNull =>
      Throw (TypeError ("Cannot read properties of null (reading '" +:+ key +:+ "')"))
  | JObj fields => Ok (own fields key)
  | JArr l =>
      if String.eqb key "length" then Ok (JNum (Z.of_nat (List.length l)))
      else Ok JUndefined
  | JStr s =>
      if String.eqb key "length" then Ok (JNum (str_length s))
      else Ok JUndefined
  | JBool _ | JNum _ => Ok JUndefined
  end.

(** [v?.key]. *)
Definition get_opt (v : jsval) (key : string) : jsval :=
  match get v key with
  | Ok x => x
  | Throw _ => JUndefined
  end.

(** [v[0]] on a value that is not null or undefined. *)
Definition first (v : jsval) : jsval :=
  match v with
  | JArr (x :: _) => x
  | JStr (String c _) => JStr (String c EmptyString)
  | JObj fields => own fields "0"
  | _ => JUndefined
  end.

(** [a || b]. *)
Definition or_else (a b : jsval) : jsval := if truthy a then a else b.

(** [error.message]. *)
Definition message (e : exn) : string :=
  match e with
  | OAuthError error => "OAuth error: " +:+ error
  | NoAuthorizationCode => "No authorization code received"
  | InvalidState => "Invalid state parameter - possible CSRF attack"
  | TokenExchangeFailed errorText => "Token exchange failed: " +:+ errorText
  | AuthenticationRequired => "Authentication required"
  | SessionExpired => "Session expired, please log in again"
  | GatewayHttp status errorText =>
      "Gateway error " +:+ Z_toString status +:+ ": " +:+ errorText
  | GatewayRpc detail => "Gateway error: " +:+ detail
  | InvalidResponseFormat => "Invalid response format from agent"
  | GuideInvalidState => "Invalid state parameter"
  | GuideTokenExchangeFailed => "Token exchange failed"
  | TypeError msg => msg
  | SyntaxError msg => msg
  end.

(** The two [JSON] entry points the client calls. *)
Record JSON_api : Type := {
  parse : string -> option jsval;       (* [None]: throws SyntaxError *)
  stringify : jsval -> string
}.

End Js.

(* ===================================================================== *)
(** ** The browser: storage, effects, and the monad of a method body     *)
(* ===================================================================== *)

Module Browser.
Import Js.

(** The body of a request: a string ([JSON.stringify(...)]) or a
    [URLSearchParams] object, kept as its list of pairs. *)
Inductive Body : Type :=
| TextBody (s : string)
| FormBody (fields : list (string * string)).

Record Request : Type := {
  url : string;
  headers : list (string * string);
  body : Body
}.

(** What leaves the page.  [Navigate endpoint params] is the assignment
    [window.location.href = `${endpoint}?${params.toString()}`] with the
    parameters before URL encoding; [Fetch req] is a [POST]. *)
Inductive Effect : Type :=
| Navigate (endpoint : string) (params : list (string * string))
| Fetch (req : Request).

Record World : Type := {
  localStorage : gmap string string;
  sessionStorage : gmap string string;
  effects : list Effect            (* oldest first *)
}.

Definition M (A : Type) : Type := World -> Result A * World.

Definition ret {A} (a : A) : M A := fun w => (Ok a, w).
Definition throw {A} (e : exn) : M A := fun w => (Throw e, w).
Definition bind {A B} (c : M A) (k : A -> M B) : M B :=
  fun w =>
    match c w with
    | (Ok a, w') => k a w'
    | (Throw e, w') => (Throw e, w')
    end.
Definition try_catch {A} (c : M A) (handler : exn -> M A) : M A :=
  fun w =>
    match c w with
    | (Ok a, w') => (Ok a, w')
    | (Throw e, w') => handler e w'
    end.
(** A computation that touches nothing, such as a property read. *)
Definition lift {A} (r : Result A) : M A := fun w => (r, w).

Declare Scope js_scope.
Delimit Scope js_scope with js.
Notation "x <- c ;; k" := (bind c (fun x => k))
  (at level 100, c at next level, right associativity) : js_scope.
Notation "c ;;; k" := (bind c (fun _ => k))
  (at level 100, right associativity) : js_scope.
Local Open Scope js_scope.

Definition localStorage_getItem (key : string) : M (option string) :=
  fun w => (Ok (localStorage w !! key), w).
Definition localStorage_setItem (key value : string) : M unit :=
  fun w => (Ok tt, {| localStorage := <[key := value]> (localStorage w);
                      sessionStorage := sessionStorage w;
                      effects := effects w |}).
Definition localStorage_removeItem (key : string) : M unit :=
  fun w => (Ok tt, {| localStorage := delete key (localStorage w);
                      sessionStorage := sessionStorage w;
                      effects := effects w |}).
Definition sessionStorage_getItem (key : string) : M (option string) :=
  fun w => (Ok (sessionStorage w !! key), w).
Definition sessionStorage_setItem (key value : string) : M unit :=
  fun w => (Ok tt, {| localStorage := localStorage w;
                      sessionStorage := <[key := value]> (sessionStorage w);
                      effects := effects w |}).
Definition sessionStorage_removeItem (key : string) : M unit :=
  fun w => (Ok tt, {| localStorage := localStorage w;
                      sessionStorage := delete key (sessionStorage w);
                      effects := effects w |}).

Definition emit (e : Effect) : M unit :=
  fun w => (Ok tt, {| localStorage := localStorage w;
                      sessionStorage := sessionStorage w;
                      effects := effects w ++ [e] |}).

(** A decoded response: [text()] gives [text]; [json()] gives [json], or
    throws a SyntaxError when it is [None]. *)
Record Response (J : Type) : Type := {
  status : Z;
  text : string;
  json : option J
}.
Arguments status {J} r.
Arguments text {J} r.
Arguments json {J} r.

Definition ok {J} (r : Response J) : bool :=
  (200 <=? status r) && (status r <=? 299).

(** How a [fetch] settles: with a response, or rejected (no connection). *)
Inductive Fetched (J : Type) : Type :=
| Resolved (r : Response J)
| Rejected (reason : string).
Arguments Resolved {J} r.
Arguments Rejected {J} reason.

Definition fetch {J} (req : Request) (answer : Fetched J) : M (Response J) :=
  emit (Fetch req) ;;;
  match answer with
  | Resolved r => ret r
  | Rejected reason => throw (TypeError reason)
  end.

Definition response_json {J} (r : Response J) : M J :=
  match json r with
  | Some j => ret j
  | None => throw (SyntaxError "Unexpected token in JSON")
  end.

(** [new URLSearchParams(window.location.search).get(name)] over the decoded
    pairs of the query string: the first pair with that name, or [null]. *)
Fixpoint URLSearchParams_get (search : list (string * string)) (name : string)
  : option string :=
  match search with
  | [] => None
  | (k, v) :: rest => if String.eqb k name then Some v else URLSearchParams_get rest name
  end.

(** [s.charAt(i)]: the one-character string at [i], or the empty string. *)
Definition charAt (s : string) (i : N) : string :=
  match String.get (N.to_nat i) s with
  | Some c => String c EmptyString
  | None => ""
  end.

End Browser.

(* ===================================================================== *)
(** ** services/cyberark-auth.js                                         *)
(* ===================================================================== *)

Module CyberArkAuth.
Import Js Browser.
Local Open Scope js_scope.

(** [import.meta.env] and [window.location.origin], read as strings. *)
Record Config : Type := {
  VITE_CYBERARK_CLIENT_ID : string;
  VITE_CYBERARK_AUTH_ENDPOINT : string;
  VITE_CYBERARK_TOKEN_ENDPOINT : string;
  VITE_API_BASE_URL : string;
  origin : string
}.

(** The body of the token endpoint's answer, seen through the three
    properties the client reads; a property that is missing is [undefined].
    [TokenNull] is the body [null]. *)
Record TokenData : Type := {
  access_token : option string;
  refresh_token : option string;
  expires_in : option Z
}.

Inductive TokenJson : Type :=
| TokenNull
| TokenObject (d : TokenData).

Definition read_token_data (j : TokenJson) : M TokenData :=
  match j with
  | TokenObject d => ret d
  | TokenNull =>
      throw (TypeError "Cannot read properties of null (reading 'access_token')")
  end.

Section Methods.
Variable env : Config.

(* constructor *)
Definition clientId : string := VITE_CYBERARK_CLIENT_ID env.
Definition authEndpoint : string := VITE_CYBERARK_AUTH_ENDPOINT env.
Definition tokenEndpoint : string := VITE_CYBERARK_TOKEN_ENDPOINT env.
Definition redirectUri : string := origin env +:+ "/callback".

Definition getAccessToken : M (option string) :=
  localStorage_getItem "cyberark_access_token".

(** [now] is what [Date.now()] answers on the last line. *)
Definition isAuthenticated (now : Z) : M bool :=
  token <- getAccessToken ;;
  if negb (truthy_str token) then ret false else
  expiry <- localStorage_getItem "cyberark_token_expiry" ;;
  if negb (truthy_str expiry) then ret false else
  ret (lt (Some now) (parseInt (default "" expiry))).

Definition chars : string :=
  "ABCDEFGHIJKLMNOPQRSTUVWXYZabcdefghijklmnopqrstuvwxyz0123456789".

(** [draw i] is [Math.floor(Math.random() * chars.length)] at iteration [i]. *)
Definition generateRandomString (draw : nat -> N) (length : nat) : string :=
  fold_left (fun result i => result +:+ charAt chars (draw i)) (seq 0 length) "".

Definition login (draw : nat -> N) : M unit :=
  let state := generateRandomString draw 32 in
  sessionStorage_setItem "oauth_state" state ;;;
  let params := [ ("client_id", clientId);
                  ("redirect_uri", redirectUri);
                  ("response_type", "code");
                  ("scope", "openid profile email");
                  ("state", state) ] in
  emit (Navigate authEndpoint params).

(** [now] is what [Date.now()] answers; [refreshToken] is received and not
    used. *)
Definition storeTokens (accessToken refreshToken : option string)
                       (expiresIn : option Z) (now : Z) : M unit :=
  let expiryTime : number := (fun e => now + e * 1000) <$> expiresIn in
  localStorage_setItem "cyberark_access_token" (ToString_opt accessToken) ;;;
  localStorage_setItem "cyberark_token_expiry" (Number_toString expiryTime).

Definition exchange_request (stringify : jsval -> string) (code : string) : Request :=
  {| url := VITE_API_BASE_URL env +:+ "/auth/token";
     headers := [("Content-Type", "application/json")];
     body := TextBody (stringify (JObj [ ("code", JStr code);
                                         ("redirect_uri", JStr redirectUri) ])) |}.

(** [search] is the decoded query string of the page, [answer] is how the
    token exchange settles, [now] is the clock when the tokens are stored. *)
Definition handleCallback (JSON : JSON_api)
    (search : list (string * string)) (answer : Fetched TokenJson) (now : Z)
  : M (option string) :=
  let code := URLSearchParams_get search "code" in
  let state := URLSearchParams_get search "state" in
  let error := URLSearchParams_get search "error" in
  if truthy_str error then throw (OAuthError (default "" error)) else
  if negb (truthy_str code) then throw NoAuthorizationCode else
  savedState <- sessionStorage_getItem "oauth_state" ;;
  if negb (bool_decide (state = savedState)) then throw InvalidState else
  tokenResponse <- fetch (exchange_request (stringify JSON) (default "" code)) answer ;;
  if negb (ok tokenResponse) then throw (TokenExchangeFailed (text tokenResponse)) else
  body <- response_json tokenResponse ;;
  tokenData <- read_token_data body ;;
  storeTokens (access_token tokenData) (refresh_token tokenData)
              (expires_in tokenData) now ;;;
  sessionStorage_removeItem "oauth_state" ;;;
  ret (access_token tokenData).

Definition logout : M unit :=
  localStorage_removeItem "cyberark_access_token" ;;;
  localStorage_removeItem "cyberark_token_expiry" ;;;
  sessionStorage_removeItem "oauth_state".

End Methods.
End CyberArkAuth.

(* ===================================================================== *)
(** ** api-gateway.js                                                    *)
(* ===================================================================== *)

Module ApiGateway.
Import Js Browser.
Local Open Scope js_scope.

Definition GATEWAY_URL : string :=
  "https://<your-gateway-id>.gateway.bedrock-agentcore.<region>.amazonaws.com/mcp".

(** The [id] of the envelope: [`${method}-${Date.now()}`]. *)
Definition request_id (method : string) (now : Z) : string :=
  method +:+ "-" +:+ Z_toString now.

Definition payload (method : string) (params : jsval) (now : Z) : jsval :=
  JObj [ ("jsonrpc", JStr "2.0");
         ("id", JStr (request_id method now));
         ("method", JStr method);
         ("params", params) ].

Section Client.
Variable env : CyberArkAuth.Config.     (* behind the singleton [cyberarkAuth] *)
Variable JSON : JSON_api.

Definition gateway_request (token : string) (p : jsval) : Request :=
  {| url := GATEWAY_URL;
     headers := [ ("Content-Type", "application/json");
                  ("Authorization", "Bearer " +:+ token) ];
     body := TextBody (stringify JSON p) |}.

(** [now] is the clock when the envelope is built, [draw] the random source
    [login()] would use, [answer] how the POST settles. *)
Definition callGateway (method : string) (params : jsval)
    (now : Z) (draw : nat -> N) (answer : Fetched jsval) : M jsval :=
  token <- CyberArkAuth.getAccessToken ;;
  if negb (truthy_str token) then
    (* Not authenticated, redirect to login *)
    CyberArkAuth.login env draw ;;;
    throw AuthenticationRequired
  else
  let payload := payload method params now in
  try_catch
    (response <- fetch (gateway_request (default "" token) payload) answer ;;
     (* Handle 401 Unauthorized - token expired, redirect to login *)
     if status response =? 401 then
       CyberArkAuth.logout ;;;
       CyberArkAuth.login env draw ;;;
       throw SessionExpired
     else
     if negb (ok response) then
       throw (GatewayHttp (status response) (text response))
     else
     data <- response_json response ;;
     (* Check for JSON-RPC error *)
     error <- lift (get data "error") ;;
     if truthy error then
       msg <- lift (get error "message") ;;
       throw (GatewayRpc (ToString (or_else msg (JStr (stringify JSON error)))))
     else
     ret data)
    (fun error => throw error).

Definition listTools (now : Z) (draw : nat -> N) (answer : Fetched jsval)
  : M jsval :=
  response <- callGateway "tools/list" (JObj []) now draw answer ;;
  lift (get response "result").

Definition callTool (toolName : string) (toolArgs : jsval)
    (now : Z) (draw : nat -> N) (answer : Fetched jsval) : M jsval :=
  response <- callGateway "tools/call"
                (JObj [("name", JStr toolName); ("arguments", toolArgs)])
                now draw answer ;;
  lift (get response "result").

(** [result.content && result.content[0]?.text], given [result.content]. *)
Definition lambda_text (content : jsval) : jsval :=
  if truthy content then get_opt (first content) "text" else content.

(** The block both [runCouncil] and [runDxO] apply to the result of
    [callTool]: "Parse the Lambda response", then the fallback. *)
Definition parseLambdaResponse (result : jsval) : M jsval :=
  content <- lift (get result "content") ;;
  let text := lambda_text content in
  if truthy text then
    try_catch
      (match parse JSON (ToString text) with
       | None => throw (SyntaxError "Unexpected token in JSON")
       | Some lambdaResponse =>
           (* Lambda might return the data nested in 'output' or directly *)
           output <- lift (get lambdaResponse "output") ;;
           if truthy output then ret output else ret lambdaResponse
       end)
      (fun e => throw InvalidResponseFormat)
  else
  (* Fallback - return result as-is *)
  ret result.

Definition runCouncil (question : string)
    (now : Z) (draw : nat -> N) (answer : Fetched jsval) : M jsval :=
  try_catch
    (result <- callTool "deep-research-lambda___invokeCouncil"
                 (JObj [("question", JStr question)]) now draw answer ;;
     parseLambdaResponse result)
    (fun error => throw error).

Definition runDxO (question : string)
    (now : Z) (draw : nat -> N) (answer : Fetched jsval) : M jsval :=
  try_catch
    (result <- callTool "deep-research-lambda___invokeDxO"
                 (JObj [("question", JStr question)]) now draw answer ;;
     parseLambdaResponse result)
    (fun error => throw error).

Definition healthy (count : jsval) : jsval :=
  JObj [ ("status", JStr "healthy");
         ("gateway", JStr "connected");
         ("tools", count) ].

Definition unhealthy (error : exn) : jsval :=
  JObj [ ("status", JStr "error");
         ("error", JStr (message error)) ].

(** [tools.tools?.length || 0]. *)
Definition tool_count (tools : jsval) : M jsval :=
  listed <- lift (get tools "tools") ;;
  ret (or_else (if nullish listed then JUndefined else get_opt listed "length")
               (JNum 0)).

Definition healthCheck (now : Z) (draw : nat -> N) (answer : Fetched jsval)
  : M jsval :=
  try_catch
    (tools <- listTools now draw answer ;;
     count <- tool_count tools ;;
     ret (healthy count))
    (fun error => ret (unhealthy error)).

End Client.
End ApiGateway.

(* ===================================================================== *)
(** ** The [CyberArkAuth] class of the gateway setup guide               *)
(* ===================================================================== *)

(** The guide prints a second implementation of the class, with PKCE at
    login and with [refreshAccessToken]; it works on the same storage keys.
    Its [login] and [generatePKCE] follow in [GuideLogin]. *)
Module Guide.
Import Js Browser.
Import CyberArkAuth(TokenData, TokenJson, TokenNull, TokenObject,
                    access_token, refresh_token, expires_in, read_token_data).
Local Open Scope js_scope.

Record CyberArkAuth : Type := {
  clientId : string;
  authEndpoint : string;
  tokenEndpoint : string;
  redirectUri : string;
  scopes : string
}.

Definition constructor : CyberArkAuth :=
  {| clientId := "<your-client-id>";
     authEndpoint :=
       "https://<your-cyberark-tenant>.id.cyberark.cloud/OAuth2/Authorize/agentcoredemo";
     tokenEndpoint :=
       "https://<your-cyberark-tenant>.id.cyberark.cloud/OAuth2/Token/agentcoredemo";
     redirectUri := "http://localhost:5173/callback";
     scopes := "openid profile email" |}.

(** [String(x)] for a value that is a string or [null]. *)
Definition ToString_null (o : option string) : string := default "null" o.

Section Methods.
Variable this : CyberArkAuth.

Definition form_headers : list (string * string) :=
  [("Content-Type", "application/x-www-form-urlencoded")].

Definition storeTokens (accessToken refreshToken : option string)
                       (expiresIn : option Z) (now : Z) : M unit :=
  let expiryTime : number := (fun e => now + e * 1000) <$> expiresIn in
  localStorage_setItem "cyberark_access_token" (ToString_opt accessToken) ;;;
  localStorage_setItem "cyberark_refresh_token" (ToString_opt refreshToken) ;;;
  localStorage_setItem "cyberark_token_expiry" (Number_toString expiryTime).

Definition handleCallback (search : list (string * string))
    (answer : Fetched TokenJson) (now : Z) : M (option string) :=
  let code := URLSearchParams_get search "code" in
  let state := URLSearchParams_get search "state" in
  savedState <- sessionStorage_getItem "oauth_state" ;;
  if negb (bool_decide (state = savedState)) then throw GuideInvalidState else
  verifier <- sessionStorage_getItem "pkce_verifier" ;;
  response <- fetch {| url := tokenEndpoint this;
                       headers := form_headers;
                       body := FormBody [ ("grant_type", "authorization_code");
                                          ("code", ToString_null code);
                                          ("redirect_uri", redirectUri this);
                                          ("client_id", clientId this);
                                          ("code_verifier", ToString_null verifier) ] |}
                    answer ;;
  if negb (ok response) then throw GuideTokenExchangeFailed else
  body <- response_json response ;;
  data <- read_token_data body ;;
  storeTokens (access_token data) (refresh_token data) (expires_in data) now ;;;
  ret (access_token data).

Definition getAccessToken (now : Z) : M (option string) :=
  token <- localStorage_getItem "cyberark_access_token" ;;
  expiry <- localStorage_getItem "cyberark_token_expiry" ;;
  if negb (truthy_str token) || ge (Some now) (parseInt (ToString_null expiry))
  then ret None   (* Token expired *)
  else ret token.

Definition refresh_request (refreshToken : option string) : Request :=
  {| url := tokenEndpoint this;
     headers := form_headers;
     body := FormBody [ ("grant_type", "refresh_token");
                        ("refresh_token", ToString_null refreshToken);
                        ("client_id", clientId this) ] |}.

Definition refreshAccessToken (answer : Fetched TokenJson) (now : Z)
  : M (option string) :=
  refreshToken <- localStorage_getItem "cyberark_refresh_token" ;;
  response <- fetch (refresh_request refreshToken) answer ;;
  body <- response_json response ;;
  data <- read_token_data body ;;
  storeTokens (access_token data) (refresh_token data) (expires_in data) now ;;;
  ret (access_token data).

Definition logout : M unit :=
  localStorage_removeItem "cyberark_access_token" ;;;
  localStorage_removeItem "cyberark_refresh_token" ;;;
  localStorage_removeItem "cyberark_token_expiry" ;;;
  sessionStorage_removeItem "pkce_verifier" ;;;
  sessionStorage_removeItem "oauth_state".

End Methods.
End Guide.

(* ===================================================================== *)
(** ** A concrete [JSON] for running the client on examples              *)
(* ===================================================================== *)

(** The general results below hold for every [JSON_api].  To evaluate the
    client on concrete gateway answers, this module gives one: [stringify]
    as the standard defines it on the values above, and [parse] for the
    JSON texts whose numbers are integer literals and whose strings use no
    [\u] escape (a text outside that fragment is rejected). *)
Module JsonText.
Import Js.

Definition hex_digit (n : N) : string :=
  String.substring (N.to_nat n) 1 "0123456789abcdef".

Definition dquote : string := String (ascii_of_N 34) EmptyString.
Definition bslash : string := String (ascii_of_N 92) EmptyString.

Definition quote_char (c : ascii) : string :=
  let n := N_of_ascii c in
  if (n =? 34)%N then bslash +:+ dquote
  else if (n =? 92)%N then bslash +:+ bslash
  else if (n =? 8)%N then bslash +:+ "b"
  else if (n =? 9)%N then bslash +:+ "t"
  else if (n =? 10)%N then bslash +:+ "n"
  else if (n =? 12)%N then bslash +:+ "f"
  else if (n =? 13)%N then bslash +:+ "r"
  else if (n <? 32)%N
  then bslash +:+ "u00" +:+ hex_digit (n / 16) +:+ hex_digit (n mod 16)
  else String c EmptyString.

Fixpoint quote_chars (s : string) : string :=
  match s with
  | EmptyString => ""
  | String c s' => quote_char c +:+ quote_chars s'
  end.

Definition quote (s : string) : string := dquote +:+ quote_chars s +:+ dquote.

Definition is_undefined (v : jsval) : bool :=
  match v with
  | JUndefined => true
  | _ => false
  end.

(** [JSON.stringify(v)]; an [undefined] element of an array prints as
    [null], an [undefined] property is left out. *)
Fixpoint stringify (v : jsval) : string :=
  match v with
  | JUndefined => "undefined"
  | JNull => "null"
  | JBool true => "true"
  | JBool false => "false"
  | JNum n => Z_toString n
  | JStr s => quote s
  | JArr l =>
      "[" +:+ join "," (map (fun e => match e with
                                      | JUndefined => "null"
                                      | _ => stringify e
                                      end) l) +:+ "]"
  | JObj fields =>
      "{" +:+ join ","
                (flat_map (fun '(k, x) =>
                             if is_undefined x then []
                             else [quote k +:+ ":" +:+ stringify x]) fields) +:+ "}"
  end.

Definition is_json_white (c : ascii) : bool :=
  let n := N_of_ascii c in
  (n =? 32)%N || (n =? 9)%N || (n =? 10)%N || (n =? 13)%N.

Fixpoint skip_white (s : string) : string :=
  match s with
  | String c s' => if is_json_white c then skip_white s' else s
  | EmptyString => s
  end.

Definition is_digit (c : ascii) : bool :=
  let n := N_of_ascii c in ((48 <=? n) && (n <=? 57))%N.

(** The digits at the head of [s], and what follows them. *)
Fixpoint span_digits (s : string) : string * string :=
  match s with
  | String c s' =>
      if is_digit c
      then let (d, rest) := span_digits s' in (String c d, rest)
      else ("", s)
  | EmptyString => ("", "")
  end.

Definition starts_fraction (s : string) : bool :=
  match s with
  | String c _ =>
      let n := N_of_ascii c in (n =? 46)%N || (n =? 101)%N || (n =? 69)%N
  | EmptyString => false
  end.

(** An integer literal without sign: ["0"], or digits not starting with 0. *)
Definition parse_digits (s : string) : option (Z * string) :=
  match span_digits s with
  | (EmptyString, _) => None
  | (String c more as d, rest) =>
      if (N_of_ascii c =? 48)%N && negb (String.eqb more "") then None
      else if starts_fraction rest then None
      else Some (Z.of_uint (dec_prefix d), rest)
  end.

(** The characters of a string literal after its opening quote. *)
Fixpoint parse_chars (s : string) : option (string * string) :=
  match s with
  | EmptyString => None
  | String c s' =>
      let n := N_of_ascii c in
      if (n =? 34)%N then Some ("", s')
      else if (n <? 32)%N then None
      else if (n =? 92)%N then
        match s' with
        | String e s'' =>
            let m := N_of_ascii e in
            let unescaped :=
              if (m =? 34)%N then Some 34%N
              else if (m =? 92)%N then Some 92%N
              else if (m =? 47)%N then Some 47%N
              else if (m =? 98)%N then Some 8%N
              else if (m =? 102)%N then Some 12%N
              else if (m =? 110)%N then Some 10%N
              else if (m =? 114)%N then Some 13%N
              else if (m =? 116)%N then Some 9%N
              else None in
            match unescaped, parse_chars s'' with
            | Some u, Some (str, rest) => Some (String (ascii_of_N u) str, rest)
            | _, _ => None
            end
        | EmptyString => None
        end
      else
        match parse_chars s' with
        | Some (str, rest) => Some (String c str, rest)
        | None => None
        end
  end.

Definition expect (word : string) (value : jsval) (s : string)
  : option (jsval * string) :=
  if String.prefix word s
  then Some (value, String.substring (String.length word)
                                     (String.length s - String.length word) s)
  else None.

(** Recursive descent; [fuel] bounds the nesting of calls. *)
Fixpoint parse_value (fuel : nat) (s : string) : option (jsval * string) :=
  match fuel with
  | O => None
  | S fuel' =>
      match skip_white s with
      | EmptyString => None
      | String c s' as input =>
          let n := N_of_ascii c in
          if (n =? 123)%N then                       (* { *)
            match skip_white s' with
            | String c' s'' =>
                if (N_of_ascii c' =? 125)%N then Some (JObj [], s'')
                else match parse_members fuel' s' with
                     | Some (fields, rest) => Some (JObj fields, rest)
                     | None => None
                     end
            | EmptyString => None
            end
          else if (n =? 91)%N then                   (* [ *)
            match skip_white s' with
            | String c' s'' =>
                if (N_of_ascii c' =? 93)%N then Some (JArr [], s'')
                else match parse_elements fuel' s' with
                     | Some (elems, rest) => Some (JArr elems, rest)
                     | None => None
                     end
            | EmptyString => None
            end
          else if (n =? 34)%N then                   (* string *)
            match parse_chars s' with
            | Some (str, rest) => Some (JStr str, rest)
            | None => None
            end
          else if (n =? 45)%N then                   (* - *)
            match parse_digits s' with
            | Some (z, rest) => Some (JNum (- z), rest)
            | None => None
            end
          else if is_digit c then
            match parse_digits input with
            | Some (z, rest) => Some (JNum z, rest)
            | None => None
            end
          else if (n =? 116)%N then expect "true" (JBool true) input
          else if (n =? 102)%N then expect "false" (JBool false) input
          else if (n =? 110)%N then expect "null" JNull input
          else None
      end
  end
(** One or more elements, then the closing bracket. *)
with parse_elements (fuel : nat) (s : string) : option (list jsval * string) :=
  match fuel with
  | O => None
  | S fuel' =>
      match parse_value fuel' s with
      | Some (v, rest) =>
          match skip_white rest with
          | String c rest' =>
              if (N_of_ascii c =? 93)%N then Some ([v], rest')
              else if (N_of_ascii c =? 44)%N then
                match parse_elements fuel' rest' with
                | Some (vs, rest'') => Some (v :: vs, rest'')
                | None => None
                end
              else None
          | EmptyString => None
          end
      | None => None
      end
  end
(** One or more members, then the closing brace. *)
with parse_members (fuel : nat) (s : string)
  : option (list (string * jsval) * string) :=
  match fuel with
  | O => None
  | S fuel' =>
      match skip_white s with
      | String q s' =>
          if (N_of_ascii q =? 34)%N then
            match parse_chars s' with
            | Some (key, rest) =>
                match skip_white rest with
                | String colon rest' =>
                    if (N_of_ascii colon =? 58)%N then
                      match parse_value fuel' rest' with
                      | Some (v, rest'') =>
                          match skip_white rest'' with
                          | String c after =>
                              if (N_of_ascii c =? 125)%N
                              then Some ([(key, v)], after)
                              else if (N_of_ascii c =? 44)%N then
                                match parse_members fuel' after with
                                | Some (kvs, final) => Some ((key, v) :: kvs, final)
                                | None => None
                                end
                              else None
                          | EmptyString => None
                          end
                      | None => None
                      end
                    else None
                | EmptyString => None
                end
            | None => None
            end
          else None
      | EmptyString => None
      end
  end.

Definition parse (s : string) : option jsval :=
  match parse_value (2 * String.length s + 2) s with
  | Some (v, rest) =>
      match skip_white rest with
      | EmptyString => Some v
      | _ => None
      end
  | None => None
  end.

Definition JSON : JSON_api := {| Js.parse := parse; Js.stringify := stringify |}.

End JsonText.

(* ===================================================================== *)
(** ** The session of the specification, read off the browser state      *)
(* ===================================================================== *)

Module Session.
Import Js Browser.

(** [accessToken]: the item the client keeps under [cyberark_access_token]. *)
Definition accessToken (w : World) : option string :=
  localStorage w !! "cyberark_access_token".

(** [refreshToken]: the item under [cyberark_refresh_token]. *)
Definition refreshToken (w : World) : option string :=
  localStorage w !! "cyberark_refresh_token".

(** [expiryTimestampMillis]: the integer the item under
    [cyberark_token_expiry] reads as; absent when there is no item or the
    item is not a number. *)
Definition expiryTimestampMillis (w : World) : option Z :=
  localStorage w !! "cyberark_token_expiry" ≫= parseInt.

(** [pendingState]: the item under [oauth_state]. *)
Definition pendingState (w : World) : option string :=
  sessionStorage w !! "oauth_state".

(** What the client's tests [!token], [!code], [error] look at: the string
    is stored and is not empty.  This is narrower than being stored: the
    empty string can be stored, and fails the test. *)
Definition present (o : option string) : Prop := truthy_str o = true.

(** The requests sent so far. *)
Definition requests (w : World) : list Request :=
  flat_map (fun e => match e with Fetch r => [r] | Navigate _ _ => [] end)
           (effects w).

(** The navigations started so far. *)
Definition navigations (w : World) : list string :=
  flat_map (fun e => match e with Navigate u _ => [u] | Fetch _ => [] end)
           (effects w).

End Session.

(* ===================================================================== *)
(** ** The states a method can leave behind                              *)
(* ===================================================================== *)

Module Outcome.
Import Js Browser.

Section Named.
Variable env : CyberArkAuth.Config.
Variable JSON : JSON_api.

(** The state once the exchange request has left. *)
Definition sent (w : World) (code : string) : World :=
  {| localStorage := localStorage w;
     sessionStorage := sessionStorage w;
     effects := effects w
                ++ [Fetch (CyberArkAuth.exchange_request env (stringify JSON) code)] |}.

(** The state once the tokens of [d] are stored and the pending state is
    removed. *)
Definition signed_in (w : World) (code : string)
    (d : CyberArkAuth.TokenData) (now : Z) : World :=
  {| localStorage :=
       <["cyberark_token_expiry" :=
           Number_toString ((fun e => now + e * 1000) <$> CyberArkAuth.expires_in d)]>
         (<["cyberark_access_token" := ToString_opt (CyberArkAuth.access_token d)]>
            (localStorage w));
     sessionStorage := delete "oauth_state" (sessionStorage w);
     effects := effects (sent w code) |}.

(** The state once the POST for [method] has left. *)
Definition posted (w : World) (token method : string) (params : jsval) (now : Z)
  : World :=
  snd (emit (Fetch (ApiGateway.gateway_request JSON token
                      (ApiGateway.payload method params now))) w).

(** What [callGateway] makes of a decoded 2xx body. *)
Definition rpc_outcome (data : jsval) : Result jsval :=
  match get data "error" with
  | Throw e => Throw e
  | Ok error =>
      if truthy error then
        match get error "message" with
        | Ok msg =>
            Throw (GatewayRpc (ToString (or_else msg (JStr (stringify JSON error)))))
        | Throw e => Throw e
        end
      else Ok data
  end.

End Named.
End Outcome.

(* ===================================================================== *)
(** ** Concrete scenarios                                                *)
(* ===================================================================== *)

Module Scenario.
Import Js Browser.

Definition env : CyberArkAuth.Config :=
  {| CyberArkAuth.VITE_CYBERARK_CLIENT_ID := "client-1";
     CyberArkAuth.VITE_CYBERARK_AUTH_ENDPOINT := "https://idp.example/authorize";
     CyberArkAuth.VITE_CYBERARK_TOKEN_ENDPOINT := "https://idp.example/token";
     CyberArkAuth.VITE_API_BASE_URL := "https://api.example";
     CyberArkAuth.origin := "https://app.example" |}.

(** A random source: the [i]-th draw picks character [i mod 62]. *)
Definition draw (i : nat) : N := (N.of_nat i mod 62)%N.

(** A browser in which nothing was stored. *)
Definition fresh : World :=
  {| localStorage := ∅; sessionStorage := ∅; effects := [] |}.

(** A browser in which [login()] left the pending state [state]. *)
Definition pending (state : string) : World :=
  {| localStorage := ∅;
     sessionStorage := {["oauth_state" := state]};
     effects := [] |}.

(** A browser holding an access token and its expiry. *)
Definition signed (token expiry : string) : World :=
  {| localStorage := <["cyberark_token_expiry" := expiry]>
                       {["cyberark_access_token" := token]};
     sessionStorage := ∅;
     effects := [] |}.

(** The token endpoint answering
    [{access_token: "T1", refresh_token: "R1", expires_in: 3600}]. *)
Definition granted : Fetched CyberArkAuth.TokenJson :=
  Resolved {| status := 200;
              text := "";
              json := Some (CyberArkAuth.TokenObject
                              {| CyberArkAuth.access_token := Some "T1";
                                 CyberArkAuth.refresh_token := Some "R1";
                                 CyberArkAuth.expires_in := Some 3600 |}) |}.

(** The token endpoint refusing with status 400. *)
Definition refused : Fetched CyberArkAuth.TokenJson :=
  Resolved {| status := 400; text := "invalid_grant"; json := None |}.

(** [s] between double quotes. *)
Definition quoted (s : string) : string :=
  JsonText.dquote +:+ s +:+ JsonText.dquote.

(** The tool result [{content: [{text: t}]}]. *)
Definition tool_result (t : string) : jsval :=
  JObj [("content", JArr [JObj [("text", JStr t)]])].

(** A gateway answer with the given status and decoded body. *)
Definition answered (code : Z) (body : option jsval) : Fetched jsval :=
  Resolved {| status := code; text := ""; json := body |}.

(** The council payload [{question: "X", stage1: [], stage2: [], stage3: {},
    metadata: {}}]. *)
Definition council : jsval :=
  JObj [ ("question", JStr "X");
         ("stage1", JArr []);
         ("stage2", JArr []);
         ("stage3", JObj []);
         ("metadata", JObj []) ].

(** The gateway wrapping [payload] the way it wraps a tool answer: a JSON-RPC
    result whose first content element carries [{output: payload}] as
    text. *)
Definition wrapped (payload : jsval) : Fetched jsval :=
  answered 200
    (Some (JObj [ ("jsonrpc", JStr "2.0");
                  ("id", JStr "tools/call-2000");
                  ("result",
                   JObj [("content",
                          JArr [JObj [ ("type", JStr "text");
                                       ("text",
                                        JStr (JsonText.stringify
                                                (JObj [("output", payload)]))) ]])]) ])).

End Scenario.

(* ===================================================================== *)
(** ** The guide's class, continued: PKCE and login                      *)
(* ===================================================================== *)

Module GuideLogin.
Import Js Browser.
Local Open Scope js_scope.

Definition base64_alphabet : string :=
  "ABCDEFGHIJKLMNOPQRSTUVWXYZabcdefghijklmnopqrstuvwxyz0123456789+/".

(** The character of a six-bit value. *)
Definition base64_char (n : N) : ascii :=
  match String.get (N.to_nat n) base64_alphabet with
  | Some c => c
  | None => "="%char
  end.

(** [btoa(String.fromCharCode(...buffer))] for a [Uint8Array]: three bytes
    give four characters, and a last group of one or two bytes is padded
    with [=]. *)
Fixpoint btoa (buffer : list Byte.byte) : string :=
  match buffer with
  | [] => ""
  | [a] =>
      let x := Byte.to_N a in
      String (base64_char (x / 4))
        (String (base64_char ((x mod 4) * 16)) "==")
  | [a; b] =>
      let x := Byte.to_N a in
      let y := Byte.to_N b in
      String (base64_char (x / 4))
        (String (base64_char ((x mod 4) * 16 + y / 16))
           (String (base64_char ((y mod 16) * 4)) "="))
  | a :: b :: c :: rest =>
      let x := Byte.to_N a in
      let y := Byte.to_N b in
      let z := Byte.to_N c in
      String (base64_char (x / 4))
        (String (base64_char ((x mod 4) * 16 + y / 16))
           (String (base64_char ((y mod 16) * 4 + z / 64))
              (String (base64_char (z mod 64)) (btoa rest))))
  end%N.

(** [s.replace(/c/g, replacement)] for a pattern that is one character. *)
Fixpoint replace (c : ascii) (replacement : string) (s : string) : string :=
  match s with
  | EmptyString => ""
  | String x s' =>
      if Ascii.eqb x c then replacement +:+ replace c replacement s'
      else String x (replace c replacement s')
  end.

Definition base64URLEncode (buffer : list Byte.byte) : string :=
  replace "="%char "" (replace "/"%char "_" (replace "+"%char "-" (btoa buffer))).

(** [new TextEncoder().encode(s)] on a string of bytes. *)
Definition TextEncoder_encode (s : string) : list Byte.byte :=
  list_byte_of_string s.

(** [random] is what [crypto.getRandomValues(new Uint8Array(32))] filled
    in. *)
Definition generatePKCE (random : list Byte.byte) : string * string :=
  let verifier := base64URLEncode random in
  let challenge := base64URLEncode (TextEncoder_encode verifier) in
  (verifier, challenge).

Section Methods.
Variable this : Guide.CyberArkAuth.

(** [state] is what [Math.random().toString(36).substring(7)] gave. *)
Definition login (random : list Byte.byte) (state : string) : M unit :=
  let '(verifier, challenge) := generatePKCE random in
  (* Store verifier for token exchange *)
  sessionStorage_setItem "pkce_verifier" verifier ;;;
  sessionStorage_setItem "oauth_state" state ;;;
  emit (Navigate (Guide.authEndpoint this)
          [ ("client_id", Guide.clientId this);
            ("redirect_uri", Guide.redirectUri this);
            ("response_type", "code");
            ("scope", Guide.scopes this);
            ("state", state);
            ("code_challenge", challenge);
            ("code_challenge_method", "S256") ]).

End Methods.
End GuideLogin.

(* ===================================================================== *)
(** ** The guide's gateway client (services/gateway-api.js)              *)
(* ===================================================================== *)

Module GuideGateway.
Import Js Browser.

Definition auth : Guide.CyberArkAuth := Guide.constructor.

Definition GATEWAY_URL : string :=
  "https://bedrock-agentcore.us-east-1.amazonaws.com/gateway/{GATEWAY_ID}/invocations".

(** [`session-${Date.now()}-${Math.random().toString(36).substr(2, 9)}`];
    [suffix] is the random part. *)
Definition generateSessionId (now : Z) (suffix : string) : string :=
  "session-" +:+ Z_toString now +:+ "-" +:+ suffix.

(** What the environment answers during one pass through [invokeGateway]:
    the clock read by [getAccessToken], the clock and the random part of the
    session id, how the gateway POST settles and, should it be a 401, how the
    refresh POST settles and the clock when the new tokens are stored. *)
Record Attempt : Type := {
  token_clock : Z;
  id_clock : Z;
  id_suffix : string;
  gateway : Fetched jsval;
  refresh : Fetched CyberArkAuth.TokenJson;
  refresh_clock : Z
}.

(** How a call ends: with a value, with an exception of the session class or
    the runtime, with [Error(`Gateway error: ${status}`)], or not within the
    passes the environment was scripted for. *)
Inductive Completion : Type :=
| Returned (v : jsval)
| Thrown (e : exn)
| GatewayError (status : Z)
| Unfinished.

Section Client.
Variable JSON : JSON_api.

Definition request (token prompt mode : string) (a : Attempt) : Request :=
  {| url := GATEWAY_URL;
     headers :=
       [ ("Authorization", "Bearer " +:+ token);
         ("Content-Type", "application/json");
         ("X-Amzn-Bedrock-AgentCore-Gateway-Session-Id",
          generateSessionId (id_clock a) (id_suffix a)) ];
     body := TextBody (stringify JSON (JObj [ ("prompt", JStr prompt);
                                              ("mode", JStr mode) ])) |}.

(** [random] and [state] are what [login()] would draw.  Each pass consumes
    one [Attempt]; the call on a 401 is the function calling itself. *)
Fixpoint invokeGateway (prompt mode : string)
    (random : list Byte.byte) (state : string)
    (attempts : list Attempt) (w : World) : Completion * World :=
  match attempts with
  | [] => (Unfinished, w)
  | a :: later =>
      match Guide.getAccessToken (token_clock a) w with
      | (Throw e, w1) => (Thrown e, w1)
      | (Ok token, w1) =>
          if negb (truthy_str token) then
            (* Redirect to login *)
            (Returned JUndefined, snd (GuideLogin.login auth random state w1))
          else
            match fetch (request (default "" token) prompt mode a) (gateway a) w1 with
            | (Throw e, w2) => (Thrown e, w2)
            | (Ok response, w2) =>
                if status response =? 401 then
                  (* Token expired, try refresh *)
                  match Guide.refreshAccessToken auth (refresh a) (refresh_clock a) w2 with
                  | (Throw e, w3) => (Thrown e, w3)
                  | (Ok _, w3) => invokeGateway prompt mode random state later w3
                  end
                else if negb (ok response) then
                  (GatewayError (status response), w2)
                else
                  match json response with
                  | Some v => (Returned v, w2)
                  | None => (Thrown (SyntaxError "Unexpected token in JSON"), w2)
                  end
            end
      end
  end.

End Client.
End GuideGateway.

(* ===================================================================== *)
(** ** components/Callback.jsx                                           *)
(* ===================================================================== *)

Module CallbackPage.
Import Js Browser.

(** The component's state, and the timer its effect may leave: the delay and
    the address the page is then sent to. *)
Record State : Type := {
  status : string;
  error : option string;
  timer : option (Z * string)
}.

Definition initial : State :=
  {| status := "processing"; error := None; timer := None |}.

Section Component.
Variable env : CyberArkAuth.Config.
Variable JSON : JSON_api.

(** The [handleCallback] of the component, run once on mount. *)
Definition handleCallback
    (search : list (string * string))
    (answer : Fetched CyberArkAuth.TokenJson) (now : Z)
    (w : World) : State * World :=
  let exchanging := {| status := "exchanging"; error := None; timer := None |} in
  match CyberArkAuth.handleCallback env JSON search answer now w with
  | (Ok _, w') =>
      (* Redirect to main app after short delay *)
      ({| status := "success"; error := error exchanging;
          timer := Some (1000, "/") |}, w')
  | (Throw err, w') =>
      ({| status := "error"; error := Some (message err);
          timer := timer exchanging |}, w')
  end.

End Component.
End CallbackPage.

(* ===================================================================== *)
(** ** App.jsx                                                           *)
(* ===================================================================== *)

Module App.
Import Js Browser.

Record State : Type := {
  mode : string;
  loading : bool;
  error : option string;
  result : jsval;
  isAuthenticated : bool;
  isCheckingAuth : bool
}.

Definition initial : State :=
  {| mode := "council"; loading := false; error := None; result := JNull;
     isAuthenticated := false; isCheckingAuth := true |}.

(** What the component renders. *)
Inductive View : Type :=
| LoadingView
| CallbackView
| LoginView
| MainView (shown_error : option string) (spinner : bool)
           (shown_result : option jsval).

Section Component.
Variable env : CyberArkAuth.Config.
Variable JSON : JSON_api.

(** The effect run on mount. *)
Definition checkAuth (now : Z) (s : State) (w : World) : State * World :=
  match CyberArkAuth.isAuthenticated now w with
  | (Ok authenticated, w') =>
      ({| mode := mode s; loading := loading s; error := error s;
          result := result s;
          isAuthenticated := authenticated; isCheckingAuth := false |}, w')
  | (Throw _, w') => (s, w')
  end.

Definition setMode (m : string) (s : State) : State :=
  {| mode := m; loading := loading s; error := error s; result := result s;
     isAuthenticated := isAuthenticated s; isCheckingAuth := isCheckingAuth s |}.

(** [err.response?.data?.detail || err.message || 'An error occurred'] for an
    [Error], which has no [response]. *)
Definition shown_message (err : exn) : string :=
  if String.eqb (message err) "" then "An error occurred" else message err.

Definition handleSubmit (question : string)
    (now : Z) (draw : nat -> N) (answer : Fetched jsval)
    (s : State) (w : World) : State * World :=
  let run :=
    if String.eqb (mode s) "council"
    then ApiGateway.runCouncil env JSON question now draw answer
    else ApiGateway.runDxO env JSON question now draw answer in
  match run w with
  | (Ok data, w') =>
      ({| mode := mode s; loading := false; error := None; result := data;
          isAuthenticated := isAuthenticated s;
          isCheckingAuth := isCheckingAuth s |}, w')
  | (Throw err, w') =>
      ({| mode := mode s; loading := false; error := Some (shown_message err);
          result := JNull;
          isAuthenticated := isAuthenticated s;
          isCheckingAuth := isCheckingAuth s |}, w')
  end.

Definition handleLogout (s : State) (w : World) : State * World :=
  ({| mode := mode s; loading := loading s; error := error s; result := JNull;
      isAuthenticated := false; isCheckingAuth := isCheckingAuth s |},
   snd (CyberArkAuth.logout w)).

Definition render (pathname : string) (s : State) : View :=
  (* Show loading while checking auth *)
  if isCheckingAuth s then LoadingView
  (* Handle OAuth callback *)
  else if String.eqb pathname "/callback" then CallbackView
  (* Show login if not authenticated *)
  else if negb (isAuthenticated s) then LoginView
  else MainView (if truthy_str (error s) then error s else None)
                (loading s)
                (if truthy (result s) && negb (loading s)
                 then Some (result s) else None).

End Component.
End App.

(* ===================================================================== *)
(** ** Reading [base64URLEncode] back                                    *)
(* ===================================================================== *)

(** The encoding written directly, and a decoder for it; both are related to
    [GuideLogin.base64URLEncode] by the lemmas further down. *)
Module Base64Url.
Import GuideLogin.

(** The character [base64URLEncode] writes for a six-bit value. *)
Definition url_char (n : N) : ascii :=
  if (n =? 62)%N then "-"%char
  else if (n =? 63)%N then "_"%char
  else base64_char n.

(** The encoding written directly: the URL alphabet, no padding. *)
Fixpoint encode (buffer : list Byte.byte) : string :=
  match buffer with
  | [] => ""
  | [a] =>
      let x := Byte.to_N a in
      String (url_char (x / 4)) (String (url_char ((x mod 4) * 16)) "")
  | [a; b] =>
      let x := Byte.to_N a in
      let y := Byte.to_N b in
      String (url_char (x / 4))
        (String (url_char ((x mod 4) * 16 + y / 16))
           (String (url_char ((y mod 16) * 4)) ""))
  | a :: b :: c :: rest =>
      let x := Byte.to_N a in
      let y := Byte.to_N b in
      let z := Byte.to_N c in
      String (url_char (x / 4))
        (String (url_char ((x mod 4) * 16 + y / 16))
           (String (url_char ((y mod 16) * 4 + z / 64))
              (String (url_char (z mod 64)) (encode rest))))
  end%N.

(** The six-bit value of a character of the URL alphabet. *)
Definition url_value (c : ascii) : N :=
  let n := N_of_ascii c in
  if ((65 <=? n) && (n <=? 90))%N then n - 65
  else if ((97 <=? n) && (n <=? 122))%N then n - 71
  else if ((48 <=? n) && (n <=? 57))%N then n + 4
  else if (n =? 45)%N then 62
  else 63.

Definition byte_of (n : N) : Byte.byte := default Byte.x00 (Byte.of_N n).

Fixpoint decode (s : string) : list Byte.byte :=
  match s with
  | String c1 (String c2 (String c3 (String c4 rest))) =>
      let p := url_value c1 in
      let q := url_value c2 in
      let r := url_value c3 in
      let t := url_value c4 in
      byte_of (p * 4 + q / 16)
        :: byte_of ((q mod 16) * 16 + r / 4)
        :: byte_of ((r mod 4) * 64 + t)
        :: decode rest
  | String c1 (String c2 (String c3 EmptyString)) =>
      let p := url_value c1 in
      let q := url_value c2 in
      let r := url_value c3 in
      [byte_of (p * 4 + q / 16); byte_of ((q mod 16) * 16 + r / 4)]
  | String c1 (String c2 EmptyString) =>
      let p := url_value c1 in
      let q := url_value c2 in
      [byte_of (p * 4 + q / 16)]
  | _ => []
  end%N.

(** Letters, digits, [-] and [_]: the characters a URL carries unescaped. *)
Definition url_safe (c : ascii) : bool :=
  let n := N_of_ascii c in
  ((65 <=? n) && (n <=? 90) || (97 <=? n) && (n <=? 122)
   || (48 <=? n) && (n <=? 57) || (n =? 45) || (n =? 95))%N.

Fixpoint all_chars (p : ascii -> bool) (s : string) : bool :=
  match s with
  | EmptyString => true
  | String c s' => p c && all_chars p s'
  end.

End Base64Url.

(** A string made of decimal digits only. *)
Fixpoint digits_only (s : string) : Prop :=
  match s with
  | EmptyString => True
  | String c s' => JsonText.is_digit c = true /\ digits_only s'
  end.

Import Js Browser.
Local Open Scope js_scope.

(** Unfolds the combinators of the monad and the storage primitives. *)
Ltac run :=
  cbv [bind ret throw lift try_catch emit fetch response_json
       localStorage_getItem localStorage_setItem localStorage_removeItem
       sessionStorage_getItem sessionStorage_setItem sessionStorage_removeItem
       CyberArkAuth.getAccessToken CyberArkAuth.storeTokens
       CyberArkAuth.read_token_data CyberArkAuth.logout];
  cbn [fst snd localStorage sessionStorage effects negb default from_option id].

(** Records that every byte in the context is at most 255. *)
Ltac bytes_bound :=
  repeat match goal with
         | b : Byte.byte |- _ =>
             lazymatch goal with
             | H : (Byte.to_N b <= 255)%N |- _ => fail
             | _ => pose proof (Byte.to_N_bounded b)
             end
         end.

(** Closes goals about quotients and remainders by constants. *)
Ltac sextets := zify; Z.to_euclidean_division_equations; lia.

(* ===================================================================== *)
(** ** Numbers and their decimal text                                    *)
(* ===================================================================== *)

Lemma dec_prefix_string_of_uint (u : Decimal.uint) :
  dec_prefix (NilEmpty.string_of_uint u) = u.
Proof. induction u; simpl; congruence. Qed.

Lemma trim_start_string_of_uint (u : Decimal.uint) :
  trim_start (NilEmpty.string_of_uint u) = NilEmpty.string_of_uint u.
Proof. destruct u; reflexivity. Qed.

Lemma parse_magnitude_string_of_uint (u : Decimal.uint) :
  u <> Decimal.Nil ->
  parse_magnitude (NilEmpty.string_of_uint u) = Some (Z.of_uint u).
Proof.
  intros Hu.
  assert (Hdec : match dec_prefix (NilEmpty.string_of_uint u) with
                 | Decimal.Nil => NaN
                 | d => Some (Z.of_uint d)
                 end = Some (Z.of_uint u)).
  { rewrite dec_prefix_string_of_uint. destruct u; congruence. }
  destruct u as [|u'| | | | | | | | |]; try exact Hdec; try congruence.
  destruct u'; exact Hdec.
Qed.

Lemma digits_only_string_of_uint (u : Decimal.uint) :
  digits_only (NilEmpty.string_of_uint u).
Proof. induction u; simpl; auto. Qed.

Lemma Z_toString_pos (p : positive) :
  Z_toString (Z.pos p) = NilEmpty.string_of_uint (Pos.to_uint p).
Proof.
  unfold Z_toString, Z.to_int, NilZero.string_of_int, NilZero.string_of_uint.
  pose proof (DecimalPos.Unsigned.to_uint_nonnil p) as Hnil.
  destruct (Pos.to_uint p); [contradiction | reflexivity ..].
Qed.

Lemma Z_toString_neg (p : positive) :
  Z_toString (Z.neg p) = String "-" (NilEmpty.string_of_uint (Pos.to_uint p)).
Proof.
  unfold Z_toString, Z.to_int, NilZero.string_of_int, NilZero.string_of_uint.
  pose proof (DecimalPos.Unsigned.to_uint_nonnil p) as Hnil.
  destruct (Pos.to_uint p); [contradiction | reflexivity ..].
Qed.

Lemma of_uint_to_uint (p : positive) : Z.of_uint (Pos.to_uint p) = Z.pos p.
Proof. unfold Z.of_uint. now rewrite DecimalPos.Unsigned.of_to. Qed.

(** [parseInt] reads back what [toString] printed. *)
Lemma parseInt_Z_toString (z : Z) : parseInt (Z_toString z) = Some z.
Proof.
  destruct z as [|p|p].
  - reflexivity.
  - rewrite Z_toString_pos. unfold parseInt.
    rewrite trim_start_string_of_uint.
    pose proof (DecimalPos.Unsigned.to_uint_nonnil p) as Hnil.
    transitivity (parse_magnitude (NilEmpty.string_of_uint (Pos.to_uint p))).
    + destruct (Pos.to_uint p); reflexivity.
    + rewrite parse_magnitude_string_of_uint by assumption.
      now rewrite of_uint_to_uint.
  - rewrite Z_toString_neg. unfold parseInt. simpl trim_start.
    pose proof (DecimalPos.Unsigned.to_uint_nonnil p) as Hnil.
    cbv iota beta.
    rewrite parse_magnitude_string_of_uint by assumption.
    now rewrite of_uint_to_uint.
Qed.

Lemma Z_toString_inj (a b : Z) : Z_toString a = Z_toString b -> a = b.
Proof.
  intros H. apply (f_equal parseInt) in H.
  rewrite !parseInt_Z_toString in H. congruence.
Qed.

Lemma digits_only_Z_toString (z : Z) : 0 <= z -> digits_only (Z_toString z).
Proof.
  destruct z as [|p|p]; intros Hz.
  - simpl. auto.
  - rewrite Z_toString_pos. apply digits_only_string_of_uint.
  - lia.
Qed.

(* ===================================================================== *)
(** ** Running a method body                                             *)
(* ===================================================================== *)

Lemma truthy_str_Some (s : string) : truthy_str (Some s) = true <-> s <> "".
Proof.
  simpl. rewrite negb_true_iff. split.
  - intros H ->. discriminate.
  - intros H. destruct (String.eqb_spec s ""); congruence.
Qed.

Lemma truthy_str_present (o : option string) :
  truthy_str o = true -> exists s, o = Some s /\ s <> "".
Proof.
  destruct o as [s|]; [|discriminate].
  intros H. exists s. split; [reflexivity | now apply truthy_str_Some].
Qed.

Lemma try_catch_rethrow {A} (c : M A) (w : World) :
  try_catch c (fun e => throw e) w = c w.
Proof. unfold try_catch, throw. destruct (c w) as [[a|e] w']; reflexivity. Qed.

(* ===================================================================== *)
(** ** isAuthenticated                                                   *)
(* ===================================================================== *)

(** C6 (as amended).  For every browser state and every clock reading,
    [isAuthenticated()] returns without changing the state and without any
    request or navigation; its answer is [false] whenever the stored expiry
    is absent, and whenever it is at or before the clock, whatever the access
    token; its answer is [true] exactly when an access token is stored, is
    not the empty string, and the clock is strictly before the stored expiry.
    A stored empty access token answers [false] whatever the expiry. *)
Theorem isAuthenticated_expiry_invariant (now : Z) (w : World) :
  exists b : bool,
    CyberArkAuth.isAuthenticated now w = (Ok b, w)
    /\ (Session.expiryTimestampMillis w = None -> b = false)
    /\ (forall e, Session.expiryTimestampMillis w = Some e -> e <= now -> b = false)
    /\ (b = true <->
        (exists token, Session.accessToken w = Some token /\ token <> "")
        /\ exists e, Session.expiryTimestampMillis w = Some e /\ now < e)
    /\ (Session.accessToken w = Some "" -> b = false).
Proof.
  unfold CyberArkAuth.isAuthenticated, CyberArkAuth.getAccessToken,
    Session.expiryTimestampMillis, Session.accessToken.
  run.
  destruct (localStorage w !! "cyberark_access_token") as [token|] eqn:Htok;
    cbn [truthy_str].
  2:{ exists false. cbn [negb]. repeat split; try reflexivity; try discriminate.
      intros [[token [? _]] _]. discriminate. }
  destruct (String.eqb_spec token "") as [->|Htoken]; cbn [negb].
  { exists false. repeat split; try reflexivity; try discriminate.
    intros [[token [[= <-] Hne]] _]. contradiction. }
  destruct (localStorage w !! "cyberark_token_expiry") as [e|] eqn:Hexp;
    cbn [truthy_str mbind option_bind default].
  2:{ exists false. cbn [negb]. repeat split; try reflexivity; try discriminate.
      intros [_ [e [He _]]]. discriminate. }
  destruct (String.eqb_spec e "") as [->|Hne]; cbn [negb].
  { exists false. repeat split; try reflexivity; try discriminate.
    intros [_ [e [He _]]]. discriminate. }
  exists (lt (Some now) (parseInt e)). split; [reflexivity|].
  destruct (parseInt e) as [x|]; cbn [lt].
  - split; [discriminate|]. split.
    { intros e' [= <-] Hle. apply Z.ltb_ge. exact Hle. }
    split.
    + split.
      * intros Hlt. split; [exists token; split; [reflexivity | exact Htoken]|].
        exists x. split; [reflexivity | now apply Z.ltb_lt].
      * intros [_ [e' [[= <-] Hlt]]]. now apply Z.ltb_lt.
    + intros [= ->]. contradiction.
  - split; [reflexivity|]. split; [discriminate|]. split.
    + split; [discriminate|]. intros [_ [e' [He _]]]. discriminate.
    + reflexivity.
Qed.

(** C6, counterexample to the claim as stated.  The token endpoint answers
    [{access_token: "", expires_in: 3600}] at clock 1000: [handleCallback()]
    succeeds and stores the empty string as the access token and 3601000 as
    the expiry.  [getAccessToken()] returns that string, so an access token
    is stored, and at clock 2000 the expiry is ahead; [isAuthenticated()]
    answers [false]. *)
Lemma empty_token_is_not_authenticated :
  let answer :=
    Resolved {| status := 200;
                text := "";
                json := Some (CyberArkAuth.TokenObject
                                {| CyberArkAuth.access_token := Some "";
                                   CyberArkAuth.refresh_token := None;
                                   CyberArkAuth.expires_in := Some 3600 |}) |} in
  let run :=
    CyberArkAuth.handleCallback Scenario.env JsonText.JSON
      [("code", "ABC"); ("state", "S1")] answer 1000 (Scenario.pending "S1") in
  let w := snd run in
  fst run = Ok (Some "")
  /\ Session.accessToken w = Some ""
  /\ CyberArkAuth.getAccessToken w = (Ok (Some ""), w)
  /\ Session.expiryTimestampMillis w = Some 3601000
  /\ (2000 <? 3601000) = true
  /\ CyberArkAuth.isAuthenticated 2000 w = (Ok false, w).
Proof. repeat split; vm_compute; reflexivity. Qed.

(* ===================================================================== *)
(** ** handleCallback                                                    *)
(* ===================================================================== *)

Section HandleCallback.
Variable env : CyberArkAuth.Config.
Variable JSON : JSON_api.

Abbreviation handleCallback := (CyberArkAuth.handleCallback env JSON).
Abbreviation param := URLSearchParams_get.

Lemma handleCallback_provider_error search answer now w :
  truthy_str (param search "error") = true ->
  handleCallback search answer now w
  = (Throw (OAuthError (default "" (param search "error"))), w).
Proof. intros H. unfold CyberArkAuth.handleCallback. now rewrite H. Qed.

Lemma handleCallback_missing_code search answer now w :
  truthy_str (param search "error") = false ->
  truthy_str (param search "code") = false ->
  handleCallback search answer now w = (Throw NoAuthorizationCode, w).
Proof. intros H1 H2. unfold CyberArkAuth.handleCallback. now rewrite H1, H2. Qed.

Lemma handleCallback_state_mismatch search answer now w :
  truthy_str (param search "error") = false ->
  truthy_str (param search "code") = true ->
  param search "state" <> Session.pendingState w ->
  handleCallback search answer now w = (Throw InvalidState, w).
Proof.
  intros H1 H2 H3. unfold CyberArkAuth.handleCallback. rewrite H1, H2.
  run. unfold Session.pendingState in H3.
  now rewrite bool_decide_eq_false_2.
Qed.

(** Past the three checks, the outcome is that of the exchange. *)
Lemma handleCallback_exchange search answer now w code :
  truthy_str (param search "error") = false ->
  param search "code" = Some code -> code <> "" ->
  param search "state" = Session.pendingState w ->
  handleCallback search answer now w =
  match answer with
  | Rejected reason => (Throw (TypeError reason), Outcome.sent env JSON w code)
  | Resolved r =>
      if ok r then
        match json r with
        | None => (Throw (SyntaxError "Unexpected token in JSON"), Outcome.sent env JSON w code)
        | Some CyberArkAuth.TokenNull =>
            (Throw (TypeError "Cannot read properties of null (reading 'access_token')"),
             Outcome.sent env JSON w code)
        | Some (CyberArkAuth.TokenObject d) =>
            (Ok (CyberArkAuth.access_token d), Outcome.signed_in env JSON w code d now)
        end
      else (Throw (TokenExchangeFailed (text r)), Outcome.sent env JSON w code)
  end.
Proof.
  intros H1 H2 Hne H3. unfold CyberArkAuth.handleCallback.
  rewrite H1, H2. rewrite (proj2 (truthy_str_Some code) Hne).
  run. unfold Session.pendingState in H3.
  rewrite bool_decide_eq_true_2 by exact H3. cbn [negb default].
  destruct answer as [r|reason]; [|reflexivity].
  destruct (ok r); [|reflexivity].
  destruct (json r) as [[|d]|]; reflexivity.
Qed.

End HandleCallback.


Section HandleCallbackClaims.
Variable env : CyberArkAuth.Config.
Variable JSON : JSON_api.

Abbreviation handleCallback := (CyberArkAuth.handleCallback env JSON).
Abbreviation param := URLSearchParams_get.

(** C1 (as amended).  For every invocation of [handleCallback()] whose URL
    query contains a non-empty code and a state value that differs from the
    pending state (also when no pending state is stored), the call fails and
    leaves the whole browser state as it was: no token or expiry is stored
    and no request is sent.  The failure is the CSRF error, except when the
    query also carries a non-empty [error] parameter, in which case it is the
    provider error, raised before the state is looked at. *)
Theorem handleCallback_rejects_foreign_state
    search answer now w (code state : string) :
  param search "code" = Some code -> code <> "" ->
  param search "state" = Some state ->
  Session.pendingState w <> Some state ->
  handleCallback search answer now w =
  (Throw (match param search "error" with
          | Some e => if String.eqb e "" then InvalidState else OAuthError e
          | None => InvalidState
          end), w).
Proof.
  intros Hcode Hne Hstate Hpending.
  destruct (truthy_str (param search "error")) eqn:Herr.
  - rewrite handleCallback_provider_error by exact Herr.
    destruct (param search "error") as [e|]; [|discriminate].
    simpl in Herr. destruct (String.eqb e ""); [discriminate | reflexivity].
  - rewrite handleCallback_state_mismatch.
    + destruct (param search "error") as [e|]; [|reflexivity].
      simpl in Herr. destruct (String.eqb e ""); [reflexivity | discriminate].
    + exact Herr.
    + rewrite Hcode. now apply truthy_str_Some.
    + rewrite Hstate. congruence.
Qed.

(** C10 (as amended).  If [handleCallback()] is invoked with no [error]
    parameter, a non-empty code and no [state] parameter while no pending
    state is stored, the state comparison passes: the call does not raise the
    CSRF error and sends the token-exchange request for that code. *)
Theorem handleCallback_absent_state_passes search answer now w (code : string) :
  truthy_str (param search "error") = false ->
  param search "code" = Some code -> code <> "" ->
  param search "state" = None ->
  Session.pendingState w = None ->
  exists r w',
    handleCallback search answer now w = (r, w')
    /\ r <> Throw InvalidState
    /\ effects w' =
       (effects w
        ++ [Fetch (CyberArkAuth.exchange_request env (stringify JSON) code)])%list.
Proof.
  intros Herr Hcode Hne Hstate Hpending.
  rewrite (handleCallback_exchange env JSON search answer now w code)
    by (try assumption; congruence).
  destruct answer as [r|reason].
  - destruct (ok r).
    + destruct (json r) as [[|d]|]; eexists; eexists;
        (split; [reflexivity | split; [discriminate | reflexivity]]).
    + eexists; eexists. split; [reflexivity | split; [discriminate | reflexivity]].
  - eexists; eexists. split; [reflexivity | split; [discriminate | reflexivity]].
Qed.

(** What the outcome of one invocation says about the state it leaves. *)
Lemma handleCallback_outcome search answer now w r w' :
  handleCallback search answer now w = (r, w') ->
  (exists e, r = Throw e /\ sessionStorage w' = sessionStorage w
             /\ localStorage w' = localStorage w)
  \/ (exists code d resp,
        r = Ok (CyberArkAuth.access_token d)
        /\ answer = Resolved resp
        /\ json resp = Some (CyberArkAuth.TokenObject d)
        /\ truthy_str (param search "error") = false
        /\ param search "code" = Some code /\ code <> ""
        /\ w' = Outcome.signed_in env JSON w code d now).
Proof.
  intros Hrun.
  destruct (truthy_str (param search "error")) eqn:Herr.
  { rewrite handleCallback_provider_error in Hrun by exact Herr.
    injection Hrun as <- <-. left. eauto. }
  destruct (truthy_str (param search "code")) eqn:Hcode.
  2:{ rewrite handleCallback_missing_code in Hrun by assumption.
      injection Hrun as <- <-. left. eauto. }
  destruct (decide (param search "state" = Session.pendingState w)) as [Heq|Hneq].
  2:{ rewrite handleCallback_state_mismatch in Hrun by assumption.
      injection Hrun as <- <-. left. eauto. }
  apply truthy_str_present in Hcode as [code [Hcode Hne]].
  rewrite (handleCallback_exchange env JSON search answer now w code) in Hrun
    by assumption.
  destruct answer as [resp|reason].
  - destruct (ok resp).
    + destruct (json resp) as [[|d]|] eqn:Hjson; injection Hrun as <- <-;
        try (left; eexists; repeat split; reflexivity).
      right. exists code, d, resp. repeat split; assumption.
    + injection Hrun as <- <-. left. eauto.
  - injection Hrun as <- <-. left. eauto.
Qed.

(** C5 (as amended).  After an invocation of [handleCallback()] that
    succeeds, the pending state has been cleared, so a second invocation with
    the same query string fails with the CSRF error whenever that query
    carries a state value.  After an invocation that fails, the pending
    state is what it was before. *)
Theorem handleCallback_consumes_state_on_success search answer now w r w' :
  handleCallback search answer now w = (r, w') ->
  (forall token, r = Ok token ->
     Session.pendingState w' = None
     /\ forall state answer' now',
          param search "state" = Some state ->
          handleCallback search answer' now' w' = (Throw InvalidState, w'))
  /\ (forall e, r = Throw e -> Session.pendingState w' = Session.pendingState w).
Proof.
  intros Hrun.
  destruct (handleCallback_outcome _ _ _ _ _ _ Hrun)
    as [(e & -> & Hss & _) | (code & d & resp & -> & _ & _ & Herr & Hcode & Hne & ->)].
  - split; [discriminate|]. intros _ _. unfold Session.pendingState. now rewrite Hss.
  - split; [|discriminate]. intros _ _.
    assert (Hgone : Session.pendingState (Outcome.signed_in env JSON w code d now) = None).
    { unfold Session.pendingState, Outcome.signed_in; simpl. apply lookup_delete_eq. }
    split; [exact Hgone|].
    intros state answer' now' Hstate.
    apply handleCallback_state_mismatch.
    + exact Herr.
    + rewrite Hcode. now apply truthy_str_Some.
    + rewrite Hgone, Hstate. discriminate.
Qed.

(** C4 (as amended).  Every successful [handleCallback()] stores, in
    [localStorage], the access token returned by the token endpoint and an
    expiry equal to [now + expires_in * 1000] (written in decimal), clears
    the pending state, and returns the new access token.  The refresh token
    is handed to [storeTokens] and stored nowhere: [localStorage] changes
    under those two keys only, [sessionStorage] only loses the pending state,
    and the one request of the call is the exchange of the code, sent before
    the answer arrives; so whatever either storage holds afterwards, outside
    the access token and the expiry, it held before. *)
Theorem handleCallback_success_stores search answer now w token w' :
  handleCallback search answer now w = (Ok token, w') ->
  exists resp d,
    answer = Resolved resp
    /\ json resp = Some (CyberArkAuth.TokenObject d)
    /\ token = CyberArkAuth.access_token d
    /\ localStorage w' =
       <["cyberark_token_expiry" :=
           Number_toString ((fun e => now + e * 1000) <$> CyberArkAuth.expires_in d)]>
         (<["cyberark_access_token" := ToString_opt (CyberArkAuth.access_token d)]>
            (localStorage w))
    /\ (forall a, CyberArkAuth.access_token d = Some a ->
          Session.accessToken w' = Some a)
    /\ (forall e, CyberArkAuth.expires_in d = Some e ->
          Session.expiryTimestampMillis w' = Some (now + e * 1000))
    /\ Session.refreshToken w' = Session.refreshToken w
    /\ Session.pendingState w' = None
    /\ sessionStorage w' = delete "oauth_state" (sessionStorage w)
    /\ (exists code,
          param search "code" = Some code
          /\ effects w' =
             (effects w
              ++ [Fetch (CyberArkAuth.exchange_request env (stringify JSON) code)])%list)
    /\ (forall key value,
          localStorage w' !! key = Some value ->
          key = "cyberark_access_token" \/ key = "cyberark_token_expiry"
          \/ localStorage w !! key = Some value)
    /\ (forall key value,
          sessionStorage w' !! key = Some value ->
          key <> "oauth_state" /\ sessionStorage w !! key = Some value).
Proof.
  intros Hrun.
  destruct (handleCallback_outcome _ _ _ _ _ _ Hrun)
    as [(e & [=] & _) | (code & d & resp & [= ->] & -> & Hjson & _ & Hcode & _ & ->)].
  exists resp, d. split; [reflexivity|]. split; [exact Hjson|].
  split; [reflexivity|]. split; [reflexivity|].
  unfold Session.accessToken, Session.expiryTimestampMillis,
    Session.refreshToken, Session.pendingState, Outcome.signed_in, Outcome.sent.
  cbn [localStorage sessionStorage effects].
  split.
  { intros a ->. rewrite lookup_insert_ne by discriminate.
    now rewrite lookup_insert_eq. }
  split.
  { intros e ->. rewrite lookup_insert_eq. simpl. apply parseInt_Z_toString. }
  split; [rewrite !lookup_insert_ne by discriminate; reflexivity|].
  split; [apply lookup_delete_eq|].
  split; [reflexivity|].
  split; [exists code; split; [exact Hcode | reflexivity]|].
  split.
  - intros key value Hkey.
    destruct (decide (key = "cyberark_token_expiry")) as [|Hexpiry]; [tauto|].
    destruct (decide (key = "cyberark_access_token")) as [|Haccess]; [tauto|].
    right. right.
    rewrite !lookup_insert_ne in Hkey by congruence. exact Hkey.
  - intros key value Hkey.
    destruct (decide (key = "oauth_state")) as [->|Hstate].
    + rewrite lookup_delete_eq in Hkey. discriminate.
    + rewrite lookup_delete_ne in Hkey by congruence. split; assumption.
Qed.

End HandleCallbackClaims.

(** *** The same, on concrete callbacks *)

(** C1, counterexample to the claim as stated.  [login()] left the pending
    state ["abc123"]; the callback URL carries [error=access_denied], a code
    and [state=xyz999].  The call fails with the provider error, not with
    the CSRF error. *)
Lemma provider_error_precedes_state_check :
  let search := [("error", "access_denied"); ("code", "ABC"); ("state", "xyz999")] in
  let w := Scenario.pending "abc123" in
  URLSearchParams_get search "code" = Some "ABC"
  /\ URLSearchParams_get search "state" = Some "xyz999"
  /\ Session.pendingState w = Some "abc123"
  /\ CyberArkAuth.handleCallback Scenario.env JsonText.JSON search
       Scenario.granted 0 w
     = (Throw (OAuthError "access_denied"), w)
  /\ OAuthError "access_denied" <> InvalidState.
Proof. repeat split; try reflexivity; discriminate. Qed.

(** C1, witness: the specification's example, state ["abc123"] pending and
    [state=xyz999] in the URL. *)
Lemma handleCallback_rejects_foreign_state_witness :
  CyberArkAuth.handleCallback Scenario.env JsonText.JSON
    [("code", "ABC"); ("state", "xyz999")] Scenario.granted 0
    (Scenario.pending "abc123")
  = (Throw InvalidState, Scenario.pending "abc123").
Proof.
  apply (handleCallback_rejects_foreign_state Scenario.env JsonText.JSON
           [("code", "ABC"); ("state", "xyz999")] Scenario.granted 0
           (Scenario.pending "abc123") "ABC" "xyz999").
  - reflexivity.
  - discriminate.
  - reflexivity.
  - vm_compute. discriminate.
Defined.

(** C10, counterexample to the claim as stated.  A code is present, there is
    no [state] parameter and no pending state, and the URL also carries
    [error=access_denied]: the call fails with the provider error and no
    token-exchange request is sent. *)
Lemma provider_error_precedes_exchange :
  let search := [("code", "ABC"); ("error", "access_denied")] in
  URLSearchParams_get search "code" = Some "ABC"
  /\ URLSearchParams_get search "state" = None
  /\ Session.pendingState Scenario.fresh = None
  /\ CyberArkAuth.handleCallback Scenario.env JsonText.JSON search
       Scenario.granted 0 Scenario.fresh
     = (Throw (OAuthError "access_denied"), Scenario.fresh)
  /\ Session.requests Scenario.fresh = [].
Proof. repeat split; reflexivity. Qed.

(** C10, witness: [?code=ABC] in a browser where [login()] never ran. *)
Lemma handleCallback_absent_state_passes_witness :
  exists r w',
    CyberArkAuth.handleCallback Scenario.env JsonText.JSON [("code", "ABC")]
      Scenario.granted 0 Scenario.fresh = (r, w')
    /\ r <> Throw InvalidState
    /\ effects w' =
       (effects Scenario.fresh
        ++ [Fetch (CyberArkAuth.exchange_request Scenario.env
                     (stringify JsonText.JSON) "ABC")])%list.
Proof.
  apply (handleCallback_absent_state_passes Scenario.env JsonText.JSON
           [("code", "ABC")] Scenario.granted 0 Scenario.fresh "ABC").
  - reflexivity.
  - reflexivity.
  - discriminate.
  - reflexivity.
  - reflexivity.
Defined.

(** C5, counterexample to the claim as stated.  The pending state is ["S1"]
    and the callback carries [code=ABC&state=S1]; the token endpoint refuses
    the first exchange.  The call fails with the exchange error and the
    pending state is still ["S1"]; a second invocation with the same query
    string passes the state check and, the endpoint now agreeing, signs in. *)
Lemma failed_callback_keeps_pending_state :
  let search := [("code", "ABC"); ("state", "S1")] in
  let first_try :=
    CyberArkAuth.handleCallback Scenario.env JsonText.JSON search
      Scenario.refused 0 (Scenario.pending "S1") in
  let second_try :=
    CyberArkAuth.handleCallback Scenario.env JsonText.JSON search
      Scenario.granted 0 (snd first_try) in
  fst first_try = Throw (TokenExchangeFailed "invalid_grant")
  /\ Session.pendingState (snd first_try) = Some "S1"
  /\ fst second_try = Ok (Some "T1")
  /\ fst second_try <> Throw InvalidState.
Proof. repeat split; try reflexivity; discriminate. Qed.

(** C5, witness: a successful callback for [code=ABC&state=S1], then the
    same callback again. *)
Lemma handleCallback_consumes_state_on_success_witness :
  let search := [("code", "ABC"); ("state", "S1")] in
  let first_try :=
    CyberArkAuth.handleCallback Scenario.env JsonText.JSON search
      Scenario.granted 0 (Scenario.pending "S1") in
  fst first_try = Ok (Some "T1")
  /\ Session.pendingState (snd first_try) = None
  /\ CyberArkAuth.handleCallback Scenario.env JsonText.JSON search
       Scenario.refused 7 (snd first_try)
     = (Throw InvalidState, snd first_try).
Proof.
  intros search first_try.
  destruct (handleCallback_consumes_state_on_success Scenario.env JsonText.JSON
              search Scenario.granted 0 (Scenario.pending "S1")
              (fst first_try) (snd first_try)) as [Hok _].
  - vm_compute. reflexivity.
  - destruct (Hok (Some "T1")) as [Hgone Hagain]; [reflexivity|].
    split; [reflexivity|]. split; [exact Hgone|].
    apply (Hagain "S1"). reflexivity.
Defined.

(** C4, counterexample to the claim as stated.  The endpoint returns
    [{access_token: "T1", refresh_token: "R1", expires_in: 3600}] at clock
    1000: the call succeeds, [localStorage] holds the access token and the
    expiry and nothing else, [sessionStorage] is empty, and ["R1"] is stored
    under no key. *)
Lemma refresh_token_is_dropped :
  let run :=
    CyberArkAuth.handleCallback Scenario.env JsonText.JSON
      [("code", "ABC"); ("state", "S1")] Scenario.granted 1000
      (Scenario.pending "S1") in
  fst run = Ok (Some "T1")
  /\ localStorage (snd run)
     = <["cyberark_token_expiry" := "3601000"]>
         {["cyberark_access_token" := "T1"]}
  /\ sessionStorage (snd run) = ∅
  /\ forall key, localStorage (snd run) !! key <> Some "R1".
Proof.
  intros run.
  assert (Hstore : localStorage (snd run)
                   = <["cyberark_token_expiry" := "3601000"]>
                       {["cyberark_access_token" := "T1"]})
    by (vm_compute; reflexivity).
  split; [reflexivity|]. split; [exact Hstore|].
  split; [vm_compute; reflexivity|].
  intros key. rewrite Hstore.
  rewrite lookup_insert. case_decide; [discriminate|].
  rewrite lookup_singleton. case_decide; discriminate.
Qed.

(** C4, witness: the same exchange. *)
Lemma handleCallback_success_stores_witness :
  let w' :=
    snd (CyberArkAuth.handleCallback Scenario.env JsonText.JSON
           [("code", "ABC"); ("state", "S1")] Scenario.granted 1000
           (Scenario.pending "S1")) in
  Session.accessToken w' = Some "T1"
  /\ Session.expiryTimestampMillis w' = Some 3601000
  /\ Session.refreshToken w' = None
  /\ Session.pendingState w' = None.
Proof.
  intros w'.
  destruct (handleCallback_success_stores Scenario.env JsonText.JSON
              [("code", "ABC"); ("state", "S1")] Scenario.granted 1000
              (Scenario.pending "S1") (Some "T1") w')
    as (resp & d & Hanswer & Hjson & Htoken & _ & Hacc & Hexp & Href & Hpend & _).
  - vm_compute. reflexivity.
  - injection Hanswer as <-. injection Hjson as <-.
    split; [now apply Hacc|]. split; [now apply (Hexp 3600)|].
    split; [exact Href | exact Hpend].
Defined.

(* ===================================================================== *)
(** ** callGateway                                                       *)
(* ===================================================================== *)

Section CallGateway.
Variable env : CyberArkAuth.Config.
Variable JSON : JSON_api.

Abbreviation callGateway := (ApiGateway.callGateway env JSON).

Lemma callGateway_unauthenticated method params now draw answer w :
  truthy_str (Session.accessToken w) = false ->
  callGateway method params now draw answer w
  = (Throw AuthenticationRequired, snd (CyberArkAuth.login env draw w)).
Proof.
  intros Htok. unfold ApiGateway.callGateway. run.
  unfold Session.accessToken in Htok. rewrite Htok. cbn [negb].
  destruct (CyberArkAuth.login env draw w) as [[[]|e] w1] eqn:Hlogin; [reflexivity|].
  unfold CyberArkAuth.login in Hlogin. revert Hlogin. run. discriminate.
Qed.

Lemma callGateway_authenticated method params now draw answer w (token : string) :
  Session.accessToken w = Some token -> token <> "" ->
  callGateway method params now draw answer w =
  let sent := Outcome.posted JSON w token method params now in
  match answer with
  | Rejected reason => (Throw (TypeError reason), sent)
  | Resolved r =>
      if status r =? 401 then
        (Throw SessionExpired,
         snd (CyberArkAuth.login env draw (snd (CyberArkAuth.logout sent))))
      else if ok r then
        match json r with
        | None => (Throw (SyntaxError "Unexpected token in JSON"), sent)
        | Some data => (Outcome.rpc_outcome JSON data, sent)
        end
      else (Throw (GatewayHttp (status r) (text r)), sent)
  end.
Proof.
  intros Htok Hne. unfold ApiGateway.callGateway, Outcome.posted. run.
  unfold Session.accessToken in Htok. rewrite Htok.
  rewrite (proj2 (truthy_str_Some token) Hne). cbn [negb default from_option id].
  destruct answer as [r|reason]; [|reflexivity].
  destruct (status r =? 401).
  { unfold CyberArkAuth.login. run. reflexivity. }
  destruct (ok r); cbn [negb]; [|reflexivity].
  destruct (json r) as [data|]; [|reflexivity].
  unfold Outcome.rpc_outcome.
  destruct (get data "error") as [error|e]; [|reflexivity].
  destruct (truthy error); [|reflexivity].
  destruct (get error "message") as [msg|e]; reflexivity.
Qed.

(** C2 (as amended).  When no access token is stored, [callGateway] sends
    nothing, invokes [login()] and fails with the authentication-required
    error.  When the gateway answers 401, [callGateway] clears the stored
    session with [logout()], then invokes [login()] (a fresh pending state is
    stored and the page is sent to the authorization endpoint), and fails
    with the session-expired error; the access token and the expiry are gone
    afterwards, so [isAuthenticated()] is false. *)
Theorem callGateway_reauthenticates method params now draw answer w :
  (truthy_str (Session.accessToken w) = false ->
   callGateway method params now draw answer w
   = (Throw AuthenticationRequired, snd (CyberArkAuth.login env draw w)))
  /\ (forall token r,
        Session.accessToken w = Some token -> token <> "" ->
        answer = Resolved r -> status r = 401 ->
        let w' := snd ((CyberArkAuth.logout ;;; CyberArkAuth.login env draw)
                         (Outcome.posted JSON w token method params now)) in
        callGateway method params now draw answer w = (Throw SessionExpired, w')
        /\ Session.accessToken w' = None
        /\ Session.expiryTimestampMillis w' = None
        /\ Session.pendingState w'
           = Some (CyberArkAuth.generateRandomString draw 32)
        /\ Session.navigations w'
           = (Session.navigations w ++ [CyberArkAuth.authEndpoint env])%list
        /\ forall later, CyberArkAuth.isAuthenticated later w' = (Ok false, w')).
Proof.
  split; [apply callGateway_unauthenticated|].
  intros token r Htok Hne -> H401 w'.
  assert (Hacc : Session.accessToken w' = None).
  { unfold w', Session.accessToken, CyberArkAuth.login, Outcome.posted. run.
    rewrite lookup_delete_ne by discriminate. apply lookup_delete_eq. }
  split.
  - rewrite (callGateway_authenticated method params now draw _ w token Htok Hne).
    cbv zeta. rewrite H401. cbn [Z.eqb Pos.eqb].
    unfold w', CyberArkAuth.login. run. reflexivity.
  - split; [exact Hacc|]. split; [|split; [|split]].
    + unfold w', Session.expiryTimestampMillis, CyberArkAuth.login, Outcome.posted. run.
      now rewrite lookup_delete_eq.
    + unfold w', Session.pendingState, CyberArkAuth.login, Outcome.posted. run.
      apply lookup_insert_eq.
    + unfold w', Session.navigations, CyberArkAuth.login, Outcome.posted. run.
      rewrite !flat_map_app. simpl. now rewrite app_nil_r.
    + intros later. unfold CyberArkAuth.isAuthenticated. run.
      unfold Session.accessToken in Hacc. now rewrite Hacc.
Qed.

End CallGateway.

(** C2, counterexample to the claim as stated.  With the token ["T1"] stored
    and the gateway answering 401, and again with nothing stored, the call
    ends with the page sent to the authorization endpoint and, in the first
    case, a fresh pending state stored: [login()] ran. *)
Lemma callGateway_invokes_login :
  let expired :=
    ApiGateway.callGateway Scenario.env JsonText.JSON "tools/list" (JObj [])
      1000 Scenario.draw (Scenario.answered 401 None)
      (Scenario.signed "T1" "3601000") in
  let anonymous :=
    ApiGateway.callGateway Scenario.env JsonText.JSON "tools/list" (JObj [])
      1000 Scenario.draw (Scenario.answered 200 None) Scenario.fresh in
  (fst expired = Throw SessionExpired
   /\ Session.pendingState (snd expired) = Some "ABCDEFGHIJKLMNOPQRSTUVWXYZabcdef"
   /\ Session.navigations (snd expired) = ["https://idp.example/authorize"])
  /\ (fst anonymous = Throw AuthenticationRequired
      /\ Session.requests (snd anonymous) = []
      /\ Session.navigations (snd anonymous) = ["https://idp.example/authorize"]).
Proof. repeat split; vm_compute; reflexivity. Qed.

(** C2, witness: the token ["T1"] is stored and the gateway answers 401. *)
Lemma callGateway_reauthenticates_witness :
  let w := Scenario.signed "T1" "3601000" in
  let w' := snd ((CyberArkAuth.logout ;;; CyberArkAuth.login Scenario.env Scenario.draw)
                   (Outcome.posted JsonText.JSON w "T1" "tools/list" (JObj []) 1000)) in
  ApiGateway.callGateway Scenario.env JsonText.JSON "tools/list" (JObj [])
    1000 Scenario.draw (Scenario.answered 401 None) w
  = (Throw SessionExpired, w')
  /\ Session.accessToken w' = None
  /\ CyberArkAuth.isAuthenticated 1001 w' = (Ok false, w').
Proof.
  intros w w'.
  destruct (proj2 (callGateway_reauthenticates Scenario.env JsonText.JSON
                     "tools/list" (JObj []) 1000 Scenario.draw
                     (Scenario.answered 401 None) w)
              "T1" {| status := 401; text := ""; json := None |})
    as (Hrun & Hacc & _ & _ & _ & Hauth).
  - reflexivity.
  - discriminate.
  - reflexivity.
  - reflexivity.
  - split; [exact Hrun|]. split; [exact Hacc | apply Hauth].
Defined.

(* ===================================================================== *)
(** ** The id of an envelope                                             *)
(* ===================================================================== *)

Lemma digits_only_no_dash (a b : string) : ~ digits_only (a +:+ String "-" b).
Proof.
  induction a as [|c a IH]; simpl.
  - intros [Hd _]. discriminate.
  - intros [_ Hd]. exact (IH Hd).
Qed.

Lemma dash_suffix_inj (m1 m2 d1 d2 : string) :
  digits_only d1 -> digits_only d2 ->
  m1 +:+ String "-" d1 = m2 +:+ String "-" d2 -> m1 = m2 /\ d1 = d2.
Proof.
  revert m2. induction m1 as [|c m1 IH]; intros [|c2 m2] H1 H2 Heq; simpl in Heq.
  - injection Heq as ->. auto.
  - injection Heq as <- ->. exfalso. exact (digits_only_no_dash _ _ H1).
  - injection Heq as -> <-. exfalso. exact (digits_only_no_dash _ _ H2).
  - injection Heq as -> Heq. destruct (IH m2 H1 H2 Heq) as [-> ->]. auto.
Qed.

Lemma payload_id (method : string) (params : jsval) (now : Z) :
  get (ApiGateway.payload method params now) "id"
  = Ok (JStr (ApiGateway.request_id method now)).
Proof. reflexivity. Qed.

(** C9 (as amended).  The id of an envelope is the method name, a dash and
    the clock reading in decimal.  For clock readings at or after the epoch,
    the ids of two envelopes are equal exactly when both the method and the
    clock reading are equal: two invocations get different ids whenever their
    methods differ or they read different milliseconds, and the same id
    otherwise. *)
Theorem request_id_distinguishes
    (m1 m2 : string) (p1 p2 : jsval) (t1 t2 : Z) :
  0 <= t1 -> 0 <= t2 ->
  (get (ApiGateway.payload m1 p1 t1) "id" = get (ApiGateway.payload m2 p2 t2) "id"
   <-> m1 = m2 /\ t1 = t2).
Proof.
  intros H1 H2. rewrite !payload_id. unfold ApiGateway.request_id. split.
  - intros [= Heq].
    apply dash_suffix_inj in Heq; try now apply digits_only_Z_toString.
    destruct Heq as [-> Heq]. split; [reflexivity|]. now apply Z_toString_inj.
  - intros [-> ->]. reflexivity.
Qed.

(** C9, counterexample to the claim as stated.  Two invocations, one after
    the other, of the same method while the clock reads the same millisecond:
    the two requests sent are the same, id included. *)
Lemma same_millisecond_same_id :
  let call :=
    ApiGateway.callGateway Scenario.env JsonText.JSON "tools/list" (JObj [])
      1700000000000 Scenario.draw
      (Scenario.answered 200 (Some (JObj [("result", JObj [])]))) in
  let w1 := snd (call (Scenario.signed "T1" "1800000000000")) in
  let w2 := snd (call w1) in
  let envelope := ApiGateway.payload "tools/list" (JObj []) 1700000000000 in
  Session.requests w2
  = [ ApiGateway.gateway_request JsonText.JSON "T1" envelope;
      ApiGateway.gateway_request JsonText.JSON "T1" envelope ]
  /\ get envelope "id" = Ok (JStr "tools/list-1700000000000").
Proof. split; vm_compute; reflexivity. Qed.

(** C9, witness: [tools/list] and [tools/call] at the same millisecond. *)
Lemma request_id_distinguishes_witness :
  get (ApiGateway.payload "tools/list" (JObj []) 1700000000000) "id"
  = get (ApiGateway.payload "tools/call" (JObj []) 1700000000000) "id"
  <-> "tools/list" = "tools/call" /\ 1700000000000 = 1700000000000.
Proof.
  apply (request_id_distinguishes "tools/list" "tools/call" (JObj []) (JObj [])
           1700000000000 1700000000000); lia.
Defined.

(* ===================================================================== *)
(** ** healthCheck                                                       *)
(* ===================================================================== *)

Section HealthCheck.
Variable env : CyberArkAuth.Config.
Variable JSON : JSON_api.

Abbreviation listTools := (ApiGateway.listTools env JSON).
Abbreviation healthCheck := (ApiGateway.healthCheck env JSON).

Lemma get_nullish (v : jsval) (key : string) :
  nullish v = true -> exists msg, get v key = Throw (TypeError msg).
Proof. destruct v; try discriminate; intros _; eexists; reflexivity. Qed.

Lemma get_not_nullish (v : jsval) (key : string) :
  nullish v = false -> exists x, get v key = Ok x.
Proof.
  destruct v; try discriminate; intros _; simpl;
    try (eexists; reflexivity);
    destruct (String.eqb key "length"); eexists; reflexivity.
Qed.

(** C7 (as amended).  [healthCheck()] never raises and changes nothing
    beyond what [listTools()] did.  When [listTools()] fails it returns the
    object with status ["error"] carrying that error's message; when
    [listTools()] returns a value other than [null] and [undefined] it
    returns the object with status ["healthy"] and the tool count
    [tools.tools?.length || 0]; when [listTools()] returns [null] or
    [undefined] it returns the object with status ["error"] carrying the
    message of the TypeError that reading [tools.tools] raised. *)
Theorem healthCheck_never_raises now draw answer w :
  exists report,
    healthCheck now draw answer w = (Ok report, snd (listTools now draw answer w))
    /\ match fst (listTools now draw answer w) with
       | Throw e => report = ApiGateway.unhealthy e
       | Ok tools =>
           if nullish tools
           then exists msg, report = ApiGateway.unhealthy (TypeError msg)
           else exists listed,
                  get tools "tools" = Ok listed
                  /\ report = ApiGateway.healthy
                                (or_else (if nullish listed then JUndefined
                                          else get_opt listed "length")
                                         (JNum 0))
       end.
Proof.
  unfold ApiGateway.healthCheck, ApiGateway.tool_count. run.
  destruct (listTools now draw answer w) as [[tools|e] w1]; cbn [fst snd].
  - destruct (nullish tools) eqn:Hnull.
    + destruct (get_nullish tools "tools" Hnull) as [msg Hget].
      rewrite Hget. eexists. split; [reflexivity|]. exists msg. reflexivity.
    + destruct (get_not_nullish tools "tools" Hnull) as [listed Hget].
      rewrite Hget. eexists. split; [reflexivity|]. exists listed. auto.
  - eexists. split; reflexivity.
Qed.

End HealthCheck.

(** C7, counterexample to the claim as stated.  The gateway answers
    [{jsonrpc: "2.0", id: "tools/list-1000", result: null}]: [listTools()]
    succeeds, with [null], and [healthCheck()] reports status ["error"]. *)
Lemma healthCheck_null_catalog :
  let answer :=
    Scenario.answered 200
      (Some (JObj [ ("jsonrpc", JStr "2.0");
                    ("id", JStr "tools/list-1000");
                    ("result", JNull) ])) in
  let w := Scenario.signed "T1" "3601000" in
  let report :=
    ApiGateway.unhealthy
      (TypeError "Cannot read properties of null (reading 'tools')") in
  fst (ApiGateway.listTools Scenario.env JsonText.JSON 1000 Scenario.draw answer w)
  = Ok JNull
  /\ fst (ApiGateway.healthCheck Scenario.env JsonText.JSON 1000 Scenario.draw answer w)
     = Ok report
  /\ get report "status" = Ok (JStr "error").
Proof. repeat split; vm_compute; reflexivity. Qed.

(* ===================================================================== *)
(** ** Unwrapping a tool result                                          *)
(* ===================================================================== *)

Section Unwrap.
Variable JSON : JSON_api.

Abbreviation parseLambdaResponse := (ApiGateway.parseLambdaResponse JSON).

(** C3 (as amended).  For a result whose [content] property can be read
    (any result but [null] and [undefined]), let [text] be
    [result.content && result.content[0]?.text].  If [text] is falsy
    ([content] or the [text] of its first element is absent, [null], empty,
    [0] or [false]) the result is returned unchanged.  Otherwise [text] is
    parsed as JSON; a parse failure, and a text that parses to [null], raise
    the invalid-response error, never returning the raw string; a parsed
    value whose [output] is truthy yields that [output]; any other parsed
    value is returned itself.  Nothing is stored or sent. *)
Theorem parseLambdaResponse_unwraps (result content : jsval) (w : World) :
  get result "content" = Ok content ->
  let text := ApiGateway.lambda_text content in
  (truthy text = false -> parseLambdaResponse result w = (Ok result, w))
  /\ (truthy text = true ->
      (parse JSON (ToString text) = None ->
       parseLambdaResponse result w = (Throw InvalidResponseFormat, w))
      /\ forall parsed, parse JSON (ToString text) = Some parsed ->
           (nullish parsed = true ->
            parseLambdaResponse result w = (Throw InvalidResponseFormat, w))
           /\ (nullish parsed = false ->
               truthy (get_opt parsed "output") = true ->
               parseLambdaResponse result w = (Ok (get_opt parsed "output"), w))
           /\ (nullish parsed = false ->
               truthy (get_opt parsed "output") = false ->
               parseLambdaResponse result w = (Ok parsed, w))).
Proof.
  intros Hcontent text. unfold ApiGateway.parseLambdaResponse. run.
  rewrite Hcontent. fold text. split.
  - intros ->. reflexivity.
  - intros ->. split.
    + intros ->. reflexivity.
    + intros parsed ->. unfold get_opt. split; [|split].
      * intros Hnull.
        destruct (get_nullish parsed "output" Hnull) as [msg ->]. reflexivity.
      * intros Hnull.
        destruct (get_not_nullish parsed "output" Hnull) as [out ->].
        intros ->. reflexivity.
      * intros Hnull.
        destruct (get_not_nullish parsed "output" Hnull) as [out ->].
        intros ->. reflexivity.
Qed.

End Unwrap.

(** C3, counterexample to the claim as stated.  The text of the first
    content element is [{"output":null}]: it parses, the parsed object has
    an [output] key, and the call returns the parsed object, not its
    [output]. *)
Lemma null_output_returns_whole_object :
  let text := "{" +:+ Scenario.quoted "output" +:+ ":null}" in
  let parsed := JObj [("output", JNull)] in
  parse JsonText.JSON text = Some parsed
  /\ get parsed "output" = Ok JNull
  /\ ApiGateway.parseLambdaResponse JsonText.JSON (Scenario.tool_result text)
       Scenario.fresh
     = (Ok parsed, Scenario.fresh)
  /\ parsed <> JNull.
Proof. repeat split; try (vm_compute; reflexivity). discriminate. Qed.

(** C3, witness: the first example of the specification, the text
    [{"output":{"question":"Q"}}]. *)
Lemma parseLambdaResponse_unwraps_witness :
  let text :=
    "{" +:+ Scenario.quoted "output" +:+ ":{" +:+ Scenario.quoted "question"
        +:+ ":" +:+ Scenario.quoted "Q" +:+ "}}" in
  ApiGateway.parseLambdaResponse JsonText.JSON (Scenario.tool_result text)
    Scenario.fresh
  = (Ok (JObj [("question", JStr "Q")]), Scenario.fresh).
Proof.
  intros text.
  destruct (parseLambdaResponse_unwraps JsonText.JSON
              (Scenario.tool_result text)
              (JArr [JObj [("text", JStr text)]]) Scenario.fresh)
    as [_ Htruthy].
  - reflexivity.
  - destruct Htruthy as [_ Hparsed]; [reflexivity|].
    destruct (Hparsed (JObj [("output", JObj [("question", JStr "Q")])]))
      as (_ & Hout & _); [vm_compute; reflexivity|].
    apply Hout; reflexivity.
Defined.

(** [runCouncil] and [runDxO] are [callTool] followed by the unwrapping. *)
Lemma runCouncil_unwraps env JSON question now draw answer w :
  ApiGateway.runCouncil env JSON question now draw answer w =
  match ApiGateway.callTool env JSON "deep-research-lambda___invokeCouncil"
          (JObj [("question", JStr question)]) now draw answer w with
  | (Ok result, w') => ApiGateway.parseLambdaResponse JSON result w'
  | (Throw e, w') => (Throw e, w')
  end.
Proof.
  unfold ApiGateway.runCouncil. rewrite try_catch_rethrow. unfold bind.
  destruct (ApiGateway.callTool _ _ _ _ _ _ _ _) as [[result|e] w']; reflexivity.
Qed.

Lemma runDxO_unwraps env JSON question now draw answer w :
  ApiGateway.runDxO env JSON question now draw answer w =
  match ApiGateway.callTool env JSON "deep-research-lambda___invokeDxO"
          (JObj [("question", JStr question)]) now draw answer w with
  | (Ok result, w') => ApiGateway.parseLambdaResponse JSON result w'
  | (Throw e, w') => (Throw e, w')
  end.
Proof.
  unfold ApiGateway.runDxO. rewrite try_catch_rethrow. unfold bind.
  destruct (ApiGateway.callTool _ _ _ _ _ _ _ _) as [[result|e] w']; reflexivity.
Qed.

(* ===================================================================== *)
(** ** refreshAccessToken (the guide's class)                            *)
(* ===================================================================== *)

Section Refresh.
Variable this : Guide.CyberArkAuth.

Abbreviation refreshAccessToken := (Guide.refreshAccessToken this).


End Refresh.



(* ===================================================================== *)
(** ** Further properties of the session manager and the client         *)
(* ===================================================================== *)

(** X1.  [logout()] removes the access token, the expiry and the pending
    state, sends nothing, and is idempotent: a second [logout()] leaves the
    state the first one left; [isAuthenticated()] is false afterwards. *)
Theorem logout_idempotent (w : World) :
  let w1 := snd (CyberArkAuth.logout w) in
  CyberArkAuth.logout w = (Ok tt, w1)
  /\ CyberArkAuth.logout w1 = (Ok tt, w1)
  /\ Session.accessToken w1 = None
  /\ Session.expiryTimestampMillis w1 = None
  /\ Session.pendingState w1 = None
  /\ effects w1 = effects w
  /\ forall now, CyberArkAuth.isAuthenticated now w1 = (Ok false, w1).
Proof.
  intros w1. unfold w1, Session.accessToken, Session.expiryTimestampMillis,
    Session.pendingState, CyberArkAuth.isAuthenticated. run.
  repeat split.
  - f_equal. f_equal.
    + apply map_eq. intros k. rewrite !lookup_delete.
      repeat case_decide; reflexivity.
    + apply delete_delete_eq.
  - rewrite lookup_delete_ne by discriminate. apply lookup_delete_eq.
  - now rewrite lookup_delete_eq.
  - apply lookup_delete_eq.
  - intros now. rewrite lookup_delete_ne by discriminate.
    now rewrite lookup_delete_eq.
Qed.

Lemma charAt_chars_length (i : N) :
  (i < 62)%N -> String.length (charAt CyberArkAuth.chars i) = 1%nat.
Proof.
  intros Hi. unfold charAt.
  assert (Hn : (N.to_nat i < 62)%nat) by lia.
  revert Hn. generalize (N.to_nat i) as n. intros n Hn.
  do 62 (destruct n as [|n]; [reflexivity|]). lia.
Qed.

Lemma append_length (a b : string) :
  String.length (a +:+ b) = (String.length a + String.length b)%nat.
Proof. induction a as [|c a IH]; simpl; [reflexivity | now rewrite IH]. Qed.

Lemma generateRandomString_length (draw : nat -> N) (n : nat) :
  (forall i, (draw i < 62)%N) ->
  String.length (CyberArkAuth.generateRandomString draw n) = n.
Proof.
  intros Hdraw. unfold CyberArkAuth.generateRandomString.
  assert (Hgen : forall start acc,
             String.length
               (fold_left (fun result i =>
                             result +:+ charAt CyberArkAuth.chars (draw i))
                          (seq start n) acc)
             = (String.length acc + n)%nat).
  { induction n as [|n IH]; intros start acc; simpl.
    - lia.
    - rewrite IH, append_length, charAt_chars_length by apply Hdraw. lia. }
  apply (Hgen 0%nat "").
Qed.

(** X2.  [login()] stores a freshly generated state as the pending state
    and sends the page to the authorization endpoint with [client_id],
    [redirect_uri], [response_type=code], the scope [openid profile email]
    and that state; tokens are untouched.  The state has 32 characters when
    every draw of the random source falls in the alphabet. *)
Theorem login_stores_state_and_redirects
    (env : CyberArkAuth.Config) (draw : nat -> N) (w : World) :
  let state := CyberArkAuth.generateRandomString draw 32 in
  CyberArkAuth.login env draw w
  = (Ok tt,
     {| localStorage := localStorage w;
        sessionStorage := <["oauth_state" := state]> (sessionStorage w);
        effects :=
          effects w
          ++ [Navigate (CyberArkAuth.VITE_CYBERARK_AUTH_ENDPOINT env)
                [ ("client_id", CyberArkAuth.VITE_CYBERARK_CLIENT_ID env);
                  ("redirect_uri", CyberArkAuth.origin env +:+ "/callback");
                  ("response_type", "code");
                  ("scope", "openid profile email");
                  ("state", state) ]] |})
  /\ ((forall i, (draw i < 62)%N) -> String.length state = 32%nat).
Proof.
  intros state. split.
  - unfold CyberArkAuth.login. run. reflexivity.
  - apply generateRandomString_length.
Qed.

(** X3.  The checks of [handleCallback()] before the state comparison, and
    the failure of the exchange: a non-empty [error] parameter fails with the
    provider error; otherwise a missing or empty code fails with the
    missing-code error; and when the state matches but the token endpoint
    answers with a non-2xx status the call fails with the exchange error
    carrying the response text.  In all three cases no token is stored and
    the pending state is kept. *)
Theorem handleCallback_guards
    (env : CyberArkAuth.Config) (JSON : JSON_api)
    (search : list (string * string))
    (answer : Fetched CyberArkAuth.TokenJson) (now : Z) (w : World) :
  let run := CyberArkAuth.handleCallback env JSON search answer now w in
  (forall e, URLSearchParams_get search "error" = Some e -> e <> "" ->
     run = (Throw (OAuthError e), w))
  /\ (truthy_str (URLSearchParams_get search "error") = false ->
      truthy_str (URLSearchParams_get search "code") = false ->
      run = (Throw NoAuthorizationCode, w))
  /\ (forall code r,
        truthy_str (URLSearchParams_get search "error") = false ->
        URLSearchParams_get search "code" = Some code -> code <> "" ->
        URLSearchParams_get search "state" = Session.pendingState w ->
        answer = Resolved r -> ok r = false ->
        fst run = Throw (TokenExchangeFailed (text r))
        /\ localStorage (snd run) = localStorage w
        /\ sessionStorage (snd run) = sessionStorage w).
Proof.
  intros run. unfold run. split; [|split].
  - intros e He Hne.
    rewrite handleCallback_provider_error.
    + now rewrite He.
    + rewrite He. now apply truthy_str_Some.
  - apply handleCallback_missing_code.
  - intros code r Herr Hcode Hne Hstate -> Hok.
    rewrite (handleCallback_exchange env JSON search _ now w code)
      by assumption.
    rewrite Hok. repeat split.
Qed.



(** Example: the unwrapping on four inputs.  The text
    [{"output":{"question":"Q"}}] yields [{question: "Q"}]; the text
    [{"question":"Q"}] yields [{question: "Q"}]; the text [not json] raises
    the invalid-response error; a result without a [content] key is returned
    unchanged. *)
Theorem unwrap_examples :
  let unwrap result :=
    fst (ApiGateway.parseLambdaResponse JsonText.JSON result Scenario.fresh) in
  let question := JObj [("question", JStr "Q")] in
  unwrap (Scenario.tool_result
            ("{" +:+ Scenario.quoted "output" +:+ ":{"
                 +:+ Scenario.quoted "question" +:+ ":" +:+ Scenario.quoted "Q"
                 +:+ "}}"))
  = Ok question
  /\ unwrap (Scenario.tool_result
               ("{" +:+ Scenario.quoted "question" +:+ ":" +:+ Scenario.quoted "Q"
                    +:+ "}"))
     = Ok question
  /\ unwrap (Scenario.tool_result "not json") = Throw InvalidResponseFormat
  /\ unwrap (JObj [("isError", JBool false)])
     = Ok (JObj [("isError", JBool false)]).
Proof. repeat split; vm_compute; reflexivity. Qed.

(** Example: a whole session.  [login()] stores a pending state; the
    provider redirects back with [code=ABC] and that state;
    [handleCallback()] exchanges the code and the backend returns
    [{access_token: "T1", refresh_token: "R1", expires_in: 3600}];
    [isAuthenticated()] is then true; [runCouncil("X")] sends the tool call
    with the bearer token and returns the council payload the gateway
    wrapped. *)
Theorem end_to_end_scenario :
  let state := "ABCDEFGHIJKLMNOPQRSTUVWXYZabcdef" in
  let w1 := snd (CyberArkAuth.login Scenario.env Scenario.draw Scenario.fresh) in
  let callback :=
    CyberArkAuth.handleCallback Scenario.env JsonText.JSON
      [("code", "ABC"); ("state", state)] Scenario.granted 1000 w1 in
  let w2 := snd callback in
  let council :=
    ApiGateway.runCouncil Scenario.env JsonText.JSON "X" 2000 Scenario.draw
      (Scenario.wrapped Scenario.council) w2 in
  Session.pendingState w1 = Some state
  /\ fst callback = Ok (Some "T1")
  /\ Session.pendingState w2 = None
  /\ CyberArkAuth.isAuthenticated 2000 w2 = (Ok true, w2)
  /\ fst council = Ok Scenario.council
  /\ map (fun r => headers r) (Session.requests (snd council))
     = [ [("Content-Type", "application/json")];
         [("Content-Type", "application/json"); ("Authorization", "Bearer T1")] ].
Proof. repeat split; vm_compute; reflexivity. Qed.

(* ===================================================================== *)
(** ** base64URLEncode and generatePKCE (the guide's class)              *)
(* ===================================================================== *)

Import GuideLogin Base64Url.

Lemma list_ind3 {A} (P : list A -> Prop) :
  P [] -> (forall a, P [a]) -> (forall a b, P [a; b]) ->
  (forall a b c l, P l -> P (a :: b :: c :: l)) ->
  forall l, P l.
Proof.
  intros H0 H1 H2 H3.
  assert (H : forall l, P l /\ (forall a, P (a :: l)) /\ (forall a b, P (a :: b :: l))).
  { induction l as [|x l (IH0 & IH1 & IH2)].
    - auto.
    - split; [apply IH1|]. split; [intros a; apply IH2|].
      intros a b. apply H3. exact IH0. }
  intros l. apply H.
Qed.

Lemma sextet_cases (P : N -> Prop) :
  (forall k : nat, (k < 64)%nat -> P (N.of_nat k)) ->
  forall n, (n < 64)%N -> P n.
Proof.
  intros H n Hn. rewrite <- (N2Nat.id n). apply H. lia.
Qed.

Lemma url_value_url_char (n : N) : (n < 64)%N -> url_value (url_char n) = n.
Proof.
  revert n. apply sextet_cases. intros k Hk.
  do 64 (destruct k as [|k]; [vm_compute; reflexivity|]). lia.
Qed.

Lemma url_safe_url_char (n : N) : (n < 64)%N -> url_safe (url_char n) = true.
Proof.
  revert n. apply sextet_cases. intros k Hk.
  do 64 (destruct k as [|k]; [vm_compute; reflexivity|]). lia.
Qed.

Lemma replace_url_char (n : N) (s : string) :
  (n < 64)%N ->
  replace "="%char "" (replace "/"%char "_" (replace "+"%char "-"
     (String (base64_char n) s)))
  = String (url_char n)
      (replace "="%char "" (replace "/"%char "_" (replace "+"%char "-" s))).
Proof.
  revert n. apply sextet_cases. intros k Hk.
  do 64 (destruct k as [|k]; [reflexivity|]). lia.
Qed.

Lemma byte_of_to_N (b : Byte.byte) : byte_of (Byte.to_N b) = b.
Proof. unfold byte_of. now rewrite Byte.of_to_N. Qed.


Lemma base64URLEncode_encode (buffer : list Byte.byte) :
  base64URLEncode buffer = encode buffer.
Proof.
  unfold base64URLEncode.
  induction buffer as [|a|a b|a b c rest IH] using list_ind3;
    bytes_bound; cbn [btoa encode].
  - reflexivity.
  - rewrite !replace_url_char by sextets. reflexivity.
  - rewrite !replace_url_char by sextets. reflexivity.
  - rewrite !replace_url_char by sextets. now rewrite IH.
Qed.

Lemma decode_encode (buffer : list Byte.byte) : decode (encode buffer) = buffer.
Proof.
  induction buffer as [|a|a b|a b c rest IH] using list_ind3;
    bytes_bound; cbn [encode decode].
  - reflexivity.
  - rewrite !url_value_url_char by sextets.
    replace (Byte.to_N a / 4 * 4 + Byte.to_N a mod 4 * 16 / 16)%N
      with (Byte.to_N a) by sextets.
    now rewrite byte_of_to_N.
  - rewrite !url_value_url_char by sextets.
    replace (Byte.to_N a / 4 * 4 + (Byte.to_N a mod 4 * 16 + Byte.to_N b / 16) / 16)%N
      with (Byte.to_N a) by sextets.
    replace ((Byte.to_N a mod 4 * 16 + Byte.to_N b / 16) mod 16 * 16
             + Byte.to_N b mod 16 * 4 / 4)%N
      with (Byte.to_N b) by sextets.
    now rewrite !byte_of_to_N.
  - rewrite !url_value_url_char by sextets.
    replace (Byte.to_N a / 4 * 4 + (Byte.to_N a mod 4 * 16 + Byte.to_N b / 16) / 16)%N
      with (Byte.to_N a) by sextets.
    replace ((Byte.to_N a mod 4 * 16 + Byte.to_N b / 16) mod 16 * 16
             + (Byte.to_N b mod 16 * 4 + Byte.to_N c / 64) / 4)%N
      with (Byte.to_N b) by sextets.
    replace ((Byte.to_N b mod 16 * 4 + Byte.to_N c / 64) mod 4 * 64
             + Byte.to_N c mod 64)%N
      with (Byte.to_N c) by sextets.
    rewrite !byte_of_to_N. now rewrite IH.
Qed.

Lemma all_chars_encode (buffer : list Byte.byte) :
  all_chars url_safe (encode buffer) = true.
Proof.
  induction buffer as [|a|a b|a b c rest IH] using list_ind3;
    bytes_bound; cbn [encode all_chars].
  - reflexivity.
  - rewrite !url_safe_url_char by sextets. reflexivity.
  - rewrite !url_safe_url_char by sextets. reflexivity.
  - rewrite !url_safe_url_char by sextets. exact IH.
Qed.

Lemma length_encode (buffer : list Byte.byte) :
  String.length (encode buffer) = ((4 * List.length buffer + 2) / 3)%nat.
Proof.
  induction buffer as [|a|a b|a b c rest IH] using list_ind3.
  - reflexivity.
  - reflexivity.
  - reflexivity.
  - cbn [encode String.length List.length]. rewrite IH.
    replace (4 * S (S (S (List.length rest))) + 2)%nat
      with (4 * List.length rest + 2 + 4 * 3)%nat by lia.
    rewrite Nat.div_add by discriminate. lia.
Qed.

Lemma length_list_byte_of_string (s : string) :
  List.length (list_byte_of_string s) = String.length s.
Proof.
  unfold list_byte_of_string.
  induction s as [|c s IH]; simpl; [reflexivity | now rewrite IH].
Qed.

Lemma all_chars_get (p : ascii -> bool) (s : string) (i : nat) (c : ascii) :
  all_chars p s = true -> String.get i s = Some c -> p c = true.
Proof.
  revert i. induction s as [|x s IH]; intros i Hall Hget; [discriminate|].
  simpl in Hall. apply andb_prop in Hall as [Hx Hs].
  destruct i as [|i]; simpl in Hget.
  - now injection Hget as <-.
  - exact (IH i Hs Hget).
Qed.

(** X5.  [base64URLEncode] writes only letters, digits, [-] and [_] (no
    [+], [/] or [=] survives the three replacements), so its result can stand
    in a URL unescaped; for [n] bytes it writes [ceil(4n/3)] characters. *)
Theorem base64URLEncode_url_safe (buffer : list Byte.byte) :
  all_chars url_safe (base64URLEncode buffer) = true
  /\ (forall i c, String.get i (base64URLEncode buffer) = Some c ->
        c <> "+"%char /\ c <> "/"%char /\ c <> "="%char)
  /\ String.length (base64URLEncode buffer)
     = ((4 * List.length buffer + 2) / 3)%nat.
Proof.
  rewrite base64URLEncode_encode. split; [apply all_chars_encode|].
  split; [|apply length_encode].
  intros i c Hget.
  pose proof (all_chars_get _ _ _ _ (all_chars_encode buffer) Hget) as Hsafe.
  repeat split; intros ->; discriminate.
Qed.

(** X6.  [base64URLEncode] loses nothing: decoding its result gives the
    buffer back, and two different buffers never get the same encoding, the
    missing padding notwithstanding. *)
Theorem base64URLEncode_round_trip (buffer : list Byte.byte) :
  decode (base64URLEncode buffer) = buffer
  /\ forall other, base64URLEncode buffer = base64URLEncode other ->
                   buffer = other.
Proof.
  split.
  - rewrite base64URLEncode_encode. apply decode_encode.
  - intros other Heq. apply (f_equal decode) in Heq.
    now rewrite !base64URLEncode_encode, !decode_encode in Heq.
Qed.

(** X7.  [generatePKCE] derives the challenge from the verifier by
    [base64URLEncode] alone: decoding the challenge gives the verifier back,
    so the challenge it sends as [S256] is not a digest.  From 32 random
    bytes the verifier has 43 characters and the challenge 58. *)
Theorem generatePKCE_challenge_reveals_verifier (random : list Byte.byte) :
  let verifier := fst (generatePKCE random) in
  let challenge := snd (generatePKCE random) in
  verifier = base64URLEncode random
  /\ string_of_list_byte (decode challenge) = verifier
  /\ all_chars url_safe verifier = true
  /\ all_chars url_safe challenge = true
  /\ (List.length random = 32%nat ->
      String.length verifier = 43%nat /\ String.length challenge = 58%nat).
Proof.
  unfold generatePKCE, TextEncoder_encode. cbn [fst snd].
  split; [reflexivity|]. split.
  { rewrite (base64URLEncode_encode (list_byte_of_string _)), decode_encode.
    apply string_of_list_byte_of_string. }
  split; [rewrite base64URLEncode_encode; apply all_chars_encode|].
  split; [rewrite base64URLEncode_encode; apply all_chars_encode|].
  intros Hlen.
  assert (Hv : String.length (base64URLEncode random) = 43%nat).
  { rewrite base64URLEncode_encode, length_encode, Hlen. reflexivity. }
  split; [exact Hv|].
  rewrite base64URLEncode_encode, length_encode, length_list_byte_of_string, Hv.
  reflexivity.
Qed.

(* ===================================================================== *)
(** ** The guide's class: login, callback, token lookup, logout          *)
(* ===================================================================== *)

Section GuideClass.
Variable this : Guide.CyberArkAuth.

(** The exchange request of the guide's [handleCallback]. *)
Lemma guide_handleCallback_run search answer now w :
  Guide.handleCallback this search answer now w =
  if bool_decide (URLSearchParams_get search "state" = Session.pendingState w)
  then
    let request :=
      {| url := Guide.tokenEndpoint this;
         headers := Guide.form_headers;
         body := FormBody
                   [ ("grant_type", "authorization_code");
                     ("code", Guide.ToString_null (URLSearchParams_get search "code"));
                     ("redirect_uri", Guide.redirectUri this);
                     ("client_id", Guide.clientId this);
                     ("code_verifier",
                      Guide.ToString_null (sessionStorage w !! "pkce_verifier")) ] |} in
    let sent := snd (emit (Fetch request) w) in
    match answer with
    | Rejected reason => (Throw (TypeError reason), sent)
    | Resolved r =>
        if ok r then
          match json r with
          | None => (Throw (SyntaxError "Unexpected token in JSON"), sent)
          | Some CyberArkAuth.TokenNull =>
              (Throw (TypeError "Cannot read properties of null (reading 'access_token')"),
               sent)
          | Some (CyberArkAuth.TokenObject d) =>
              (Ok (CyberArkAuth.access_token d),
               snd (Guide.storeTokens (CyberArkAuth.access_token d)
                      (CyberArkAuth.refresh_token d)
                      (CyberArkAuth.expires_in d) now sent))
          end
        else (Throw GuideTokenExchangeFailed, sent)
    end
  else (Throw GuideInvalidState, w).
Proof.
  unfold Guide.handleCallback, Guide.storeTokens, Session.pendingState. run.
  destruct (bool_decide _); cbn [negb]; [|reflexivity].
  destruct answer as [r|reason]; [|reflexivity].
  destruct (ok r); cbn [negb]; [|reflexivity].
  destruct (json r) as [[|d]|]; reflexivity.
Qed.

(** X8.  The guide's [handleCallback] never touches [sessionStorage]: the
    pending state and the PKCE verifier stay in place whatever the outcome.
    It fails with the invalid-state error exactly when the [state] parameter
    differs from the pending state, so a callback that passed the state check
    once passes it again when replayed. *)
Theorem guide_handleCallback_replayable search answer now w :
  let run := Guide.handleCallback this search answer now w in
  sessionStorage (snd run) = sessionStorage w
  /\ (fst run = Throw GuideInvalidState
      <-> URLSearchParams_get search "state" <> Session.pendingState w)
  /\ (fst run <> Throw GuideInvalidState ->
      forall answer' now',
        fst (Guide.handleCallback this search answer' now' (snd run))
        <> Throw GuideInvalidState).
Proof.
  assert (Hsession : sessionStorage
                       (snd (Guide.handleCallback this search answer now w))
                     = sessionStorage w).
  { rewrite guide_handleCallback_run. unfold Guide.storeTokens.
    destruct (bool_decide _); [|reflexivity]. cbv zeta.
    destruct answer as [r|reason]; [|reflexivity].
    destruct (ok r); [|reflexivity].
    destruct (json r) as [[|d]|]; reflexivity. }
  assert (Hiff : forall answer0 now0 w0,
             fst (Guide.handleCallback this search answer0 now0 w0)
             = Throw GuideInvalidState
             <-> URLSearchParams_get search "state" <> Session.pendingState w0).
  { intros answer0 now0 w0. rewrite guide_handleCallback_run.
    case_bool_decide as Hstate.
    - cbv zeta. split; [|contradiction].
      destruct answer0 as [r|reason]; [|discriminate].
      destruct (ok r); [|discriminate].
      destruct (json r) as [[|d]|]; discriminate.
    - split; [intros _; exact Hstate | reflexivity]. }
  intros run. split; [exact Hsession|]. split; [apply Hiff|].
  intros Hpassed answer' now' Hagain.
  apply Hiff in Hagain. apply Hpassed, Hiff.
  unfold Session.pendingState in *. unfold run in Hagain.
  now rewrite Hsession in Hagain.
Qed.

(** X9.  The PKCE round trip of the guide's class: after [login()], a
    callback carrying the state that [login()] stored sends exactly one
    exchange request, whose [code_verifier] is the verifier [login()]
    generated and whose challenge [login()] put in the authorization URL;
    [login()] itself stores nothing in [localStorage]. *)
Theorem guide_pkce_round_trip
    (random : list Byte.byte) (state : string)
    (search : list (string * string))
    (answer : Fetched CyberArkAuth.TokenJson) (now : Z) (w : World) :
  URLSearchParams_get search "state" = Some state ->
  let verifier := fst (generatePKCE random) in
  let challenge := snd (generatePKCE random) in
  let w1 := snd (GuideLogin.login this random state w) in
  let run := Guide.handleCallback this search answer now w1 in
  localStorage w1 = localStorage w
  /\ effects w1
     = (effects w
        ++ [Navigate (Guide.authEndpoint this)
              [ ("client_id", Guide.clientId this);
                ("redirect_uri", Guide.redirectUri this);
                ("response_type", "code");
                ("scope", Guide.scopes this);
                ("state", state);
                ("code_challenge", challenge);
                ("code_challenge_method", "S256") ]])%list
  /\ fst run <> Throw GuideInvalidState
  /\ Session.requests (snd run)
     = (Session.requests w
        ++ [ {| url := Guide.tokenEndpoint this;
                headers := Guide.form_headers;
                body := FormBody
                          [ ("grant_type", "authorization_code");
                            ("code", Guide.ToString_null
                                       (URLSearchParams_get search "code"));
                            ("redirect_uri", Guide.redirectUri this);
                            ("client_id", Guide.clientId this);
                            ("code_verifier", verifier) ] |} ])%list.
Proof.
  intros Hstate verifier challenge w1 run.
  assert (Hw1 : w1 =
                {| localStorage := localStorage w;
                   sessionStorage :=
                     <["oauth_state" := state]>
                       (<["pkce_verifier" := verifier]> (sessionStorage w));
                   effects :=
                     effects w
                     ++ [Navigate (Guide.authEndpoint this)
                           [ ("client_id", Guide.clientId this);
                             ("redirect_uri", Guide.redirectUri this);
                             ("response_type", "code");
                             ("scope", Guide.scopes this);
                             ("state", state);
                             ("code_challenge", challenge);
                             ("code_challenge_method", "S256") ]] |}).
  { unfold w1, GuideLogin.login, verifier, challenge.
    destruct (generatePKCE random) as [v c]. run. reflexivity. }
  split; [now rewrite Hw1|]. split; [now rewrite Hw1|].
  unfold run. rewrite guide_handleCallback_run.
  assert (Hpending : Session.pendingState w1 = Some state).
  { rewrite Hw1. unfold Session.pendingState. cbn [sessionStorage].
    apply lookup_insert_eq. }
  assert (Hverifier : sessionStorage w1 !! "pkce_verifier" = Some verifier).
  { rewrite Hw1. cbn [sessionStorage].
    rewrite lookup_insert_ne by discriminate. apply lookup_insert_eq. }
  rewrite Hpending, Hstate, bool_decide_eq_true_2 by reflexivity.
  rewrite Hverifier. cbv zeta.
  assert (Hrequests : Session.requests w1 = Session.requests w).
  { rewrite Hw1. unfold Session.requests. cbn [effects].
    rewrite flat_map_app. simpl. apply app_nil_r. }
  unfold Guide.storeTokens.
  destruct answer as [r|reason];
    [destruct (ok r); [destruct (json r) as [[|d]|]|]|];
    (split; [discriminate|]);
    run; unfold Session.requests in *; cbn [effects];
    rewrite flat_map_app, Hrequests; reflexivity.
Qed.

(** X10.  The guide's [getAccessToken()] changes nothing and returns either
    nothing or the stored token; it returns the token exactly when one is
    stored, not empty, and the stored expiry does not read as a number at or
    before the clock.  In particular a token stored without any expiry is
    returned at every clock reading, where [isAuthenticated()] of the shipped
    class answers false. *)
Theorem guide_getAccessToken_fresh (now : Z) (w : World) :
  exists r,
    Guide.getAccessToken now w = (Ok r, w)
    /\ (r = None \/ r = Session.accessToken w)
    /\ (r <> None <->
        Session.present (Session.accessToken w)
        /\ forall e, parseInt (Guide.ToString_null
                                 (localStorage w !! "cyberark_token_expiry"))
                     = Some e -> now < e)
    /\ (localStorage w !! "cyberark_token_expiry" = None ->
        Session.present (Session.accessToken w) ->
        r = Session.accessToken w
        /\ CyberArkAuth.isAuthenticated now w = (Ok false, w)).
Proof.
  unfold Guide.getAccessToken, Session.present, Session.accessToken,
    CyberArkAuth.isAuthenticated. run.
  destruct (truthy_str (localStorage w !! "cyberark_access_token")) eqn:Htok;
    cbn [negb orb].
  2:{ exists None. split; [reflexivity|]. split; [now left|].
      split; [|discriminate]. split; [congruence | intros [? _]; discriminate]. }
  destruct (localStorage w !! "cyberark_token_expiry") as [expiry|] eqn:Hexp.
  - cbn [Guide.ToString_null default from_option id].
    destruct (parseInt expiry) as [e|] eqn:Hparse; cbn [ge].
    + destruct (Z.leb_spec e now) as [Hle|Hlt].
      * exists None. split; [reflexivity|]. split; [now left|].
        split; [|discriminate]. split; [congruence|].
        intros [_ Hfresh]. specialize (Hfresh e eq_refl). lia.
      * eexists. split; [reflexivity|]. split; [now right|].
        split; [|discriminate]. split.
        -- intros _. split; [reflexivity|]. intros e' [= <-]. exact Hlt.
        -- intros _ Hnone. rewrite Hnone in Htok. discriminate.
    + eexists. split; [reflexivity|]. split; [now right|].
      split; [|discriminate]. split.
      * intros _. split; [reflexivity | discriminate].
      * intros _ Hnone. rewrite Hnone in Htok. discriminate.
  - cbn [Guide.ToString_null default from_option id].
    replace (parseInt "null") with (@None Z) by reflexivity. cbn [ge].
    eexists. split; [reflexivity|]. split; [now right|].
    split; [|intros _ _; split; reflexivity]. split.
    + intros _. split; [reflexivity | discriminate].
    + intros _ Hnone. rewrite Hnone in Htok. discriminate.
Qed.

(** X11.  The guide's [logout()] removes the access token, the refresh
    token, the expiry, the pending state and the PKCE verifier, leaves every
    other key alone, sends nothing, and is idempotent; afterwards
    [getAccessToken()] returns nothing at every clock reading. *)
Theorem guide_logout_clears_session (w : World) :
  let w1 := snd (Guide.logout w) in
  Guide.logout w = (Ok tt, w1)
  /\ Guide.logout w1 = (Ok tt, w1)
  /\ Session.accessToken w1 = None
  /\ Session.refreshToken w1 = None
  /\ localStorage w1 !! "cyberark_token_expiry" = None
  /\ Session.pendingState w1 = None
  /\ sessionStorage w1 !! "pkce_verifier" = None
  /\ (forall key, key <> "cyberark_access_token" ->
        key <> "cyberark_refresh_token" -> key <> "cyberark_token_expiry" ->
        localStorage w1 !! key = localStorage w !! key)
  /\ (forall key, key <> "oauth_state" -> key <> "pkce_verifier" ->
        sessionStorage w1 !! key = sessionStorage w !! key)
  /\ effects w1 = effects w
  /\ forall now, Guide.getAccessToken now w1 = (Ok None, w1).
Proof.
  intros w1. unfold w1, Guide.logout, Session.accessToken, Session.refreshToken,
    Session.pendingState, Guide.getAccessToken. run.
  split; [reflexivity|]. split.
  { f_equal. f_equal; apply map_eq; intros k; rewrite !lookup_delete;
      repeat case_decide; reflexivity. }
  split; [rewrite !lookup_delete; repeat case_decide; congruence|].
  split; [rewrite !lookup_delete; repeat case_decide; congruence|].
  split; [rewrite !lookup_delete; repeat case_decide; congruence|].
  split; [rewrite !lookup_delete; repeat case_decide; congruence|].
  split; [rewrite !lookup_delete; repeat case_decide; congruence|].
  split.
  { intros key H1 H2 H3. rewrite !lookup_delete.
    repeat case_decide; congruence. }
  split.
  { intros key H1 H2. rewrite !lookup_delete. repeat case_decide; congruence. }
  split; [reflexivity|].
  intros now.
  replace (delete "cyberark_token_expiry"
             (delete "cyberark_refresh_token"
                (delete "cyberark_access_token" (localStorage w)))
           !! "cyberark_access_token") with (@None string)
    by (rewrite !lookup_delete; repeat case_decide; congruence).
  reflexivity.
Qed.

End GuideClass.

(** X9, witness: three random bytes, the state ["s1"], the code ["ABC"]. *)
Lemma guide_pkce_round_trip_witness :
  let search := [("code", "ABC"); ("state", "s1")] in
  let random := [Byte.x01; Byte.x02; Byte.x03] in
  let w1 := snd (GuideLogin.login Guide.constructor random "s1" Scenario.fresh) in
  let run := Guide.handleCallback Guide.constructor search Scenario.granted 1000 w1 in
  fst (GuideLogin.generatePKCE random) = "AQID"
  /\ fst run = Ok (Some "T1")
  /\ map body (Session.requests (snd run))
     = [ FormBody [ ("grant_type", "authorization_code");
                    ("code", "ABC");
                    ("redirect_uri", Guide.redirectUri Guide.constructor);
                    ("client_id", Guide.clientId Guide.constructor);
                    ("code_verifier", "AQID") ] ].
Proof.
  intros search random w1 run.
  destruct (guide_pkce_round_trip Guide.constructor random "s1" search
              Scenario.granted 1000 Scenario.fresh eq_refl)
    as (_ & _ & _ & Hrequests).
  split; [reflexivity|]. split; [reflexivity|].
  unfold run, w1. rewrite Hrequests. reflexivity.
Defined.

(* ===================================================================== *)
(** ** invokeGateway (the guide's gateway client)                        *)
(* ===================================================================== *)

Lemma guide_getAccessToken_value (now : Z) (w : World) :
  Guide.getAccessToken now w =
  (Ok (if negb (truthy_str (localStorage w !! "cyberark_access_token"))
          || ge (Some now)
                (parseInt (Guide.ToString_null
                             (localStorage w !! "cyberark_token_expiry")))
       then None
       else localStorage w !! "cyberark_access_token"), w).
Proof.
  unfold Guide.getAccessToken. run.
  destruct (negb _ || ge _ _); reflexivity.
Qed.

Lemma guide_refresh_run (this : Guide.CyberArkAuth)
    (r : Response CyberArkAuth.TokenJson) (d : CyberArkAuth.TokenData)
    (now : Z) (w : World) :
  json r = Some (CyberArkAuth.TokenObject d) ->
  Guide.refreshAccessToken this (Resolved r) now w =
  (Ok (CyberArkAuth.access_token d),
   {| localStorage :=
        <["cyberark_token_expiry" :=
            Number_toString ((fun e => now + e * 1000)
                               <$> CyberArkAuth.expires_in d)]>
          (<["cyberark_refresh_token" :=
               ToString_opt (CyberArkAuth.refresh_token d)]>
             (<["cyberark_access_token" :=
                  ToString_opt (CyberArkAuth.access_token d)]> (localStorage w)));
      sessionStorage := sessionStorage w;
      effects := effects w
                 ++ [Fetch (Guide.refresh_request this (Session.refreshToken w))] |}).
Proof.
  intros Hjson. unfold Guide.refreshAccessToken, Guide.storeTokens. run.
  rewrite Hjson. reflexivity.
Qed.

Lemma requests_app (w : World) (extra : list Effect) (ls ss : gmap string string) :
  Session.requests {| localStorage := ls; sessionStorage := ss;
                      effects := effects w ++ extra |}
  = (Session.requests w
     ++ flat_map (fun e => match e with Fetch r => [r] | Navigate _ _ => [] end)
                 extra)%list.
Proof. unfold Session.requests. cbn [effects]. apply flat_map_app. Qed.

Section InvokeGateway.
Variable JSON : JSON_api.

Abbreviation invokeGateway := (GuideGateway.invokeGateway JSON).

(** One pass with a usable token. *)
Lemma invokeGateway_pass prompt mode random state a later w (token : string) :
  fst (Guide.getAccessToken (GuideGateway.token_clock a) w) = Ok (Some token) ->
  invokeGateway prompt mode random state (a :: later) w =
  let sent := snd (emit (Fetch (GuideGateway.request JSON token prompt mode a)) w) in
  match GuideGateway.gateway a with
  | Rejected reason => (GuideGateway.Thrown (TypeError reason), sent)
  | Resolved r =>
      if status r =? 401 then
        match Guide.refreshAccessToken GuideGateway.auth (GuideGateway.refresh a)
                (GuideGateway.refresh_clock a) sent with
        | (Throw e, w3) => (GuideGateway.Thrown e, w3)
        | (Ok _, w3) => invokeGateway prompt mode random state later w3
        end
      else if ok r then
        match json r with
        | Some v => (GuideGateway.Returned v, sent)
        | None => (GuideGateway.Thrown (SyntaxError "Unexpected token in JSON"), sent)
        end
      else (GuideGateway.GatewayError (status r), sent)
  end.
Proof.
  intros Htoken. cbn [GuideGateway.invokeGateway].
  rewrite guide_getAccessToken_value in Htoken.
  rewrite guide_getAccessToken_value.
  destruct (negb (truthy_str _) || ge _ _) eqn:Hcond;
    cbn [fst] in Htoken; [discriminate|].
  injection Htoken as Htoken. rewrite Htoken in *.
  apply orb_false_elim in Hcond as [Hne _]. apply negb_false_iff in Hne.
  rewrite Hne. cbn [negb default from_option id]. run.
  destruct (GuideGateway.gateway a) as [r|reason]; [|reflexivity].
  destruct (status r =? 401); [reflexivity|].
  destruct (ok r); cbn [negb]; reflexivity.
Qed.

(** X12.  [invokeGateway] with a usable token and a gateway answer other
    than 401 ends in that pass, whatever would follow: a 2xx answer returns
    the decoded body, any other status fails with the gateway error carrying
    the status; one request is sent, with the bearer token and a session id
    built from the clock and the random suffix, and storage is untouched.
    Without a usable token it sends nothing, runs [login()] and returns
    [undefined] instead of failing. *)
Theorem invokeGateway_single_pass prompt mode random state a later w :
  let run := invokeGateway prompt mode random state (a :: later) w in
  (fst (Guide.getAccessToken (GuideGateway.token_clock a) w) = Ok None ->
   run = (GuideGateway.Returned JUndefined,
          snd (GuideLogin.login GuideGateway.auth random state w))
   /\ Session.requests (snd run) = Session.requests w)
  /\ (forall token r,
        fst (Guide.getAccessToken (GuideGateway.token_clock a) w) = Ok (Some token) ->
        GuideGateway.gateway a = Resolved r -> status r <> 401 ->
        fst run = (if ok r then
                     match json r with
                     | Some v => GuideGateway.Returned v
                     | None => GuideGateway.Thrown (SyntaxError "Unexpected token in JSON")
                     end
                   else GuideGateway.GatewayError (status r))
        /\ Session.requests (snd run)
           = (Session.requests w
              ++ [GuideGateway.request JSON token prompt mode a])%list
        /\ In ("Authorization", "Bearer " +:+ token)
              (headers (GuideGateway.request JSON token prompt mode a))
        /\ localStorage (snd run) = localStorage w
        /\ sessionStorage (snd run) = sessionStorage w).
Proof.
  intros run. split.
  - intros Hnone. unfold run. cbn [GuideGateway.invokeGateway].
    rewrite guide_getAccessToken_value in Hnone.
    rewrite guide_getAccessToken_value.
    destruct (negb (truthy_str _) || ge _ _) eqn:Hcond; cbn [fst] in Hnone.
    2:{ injection Hnone as Hnone. rewrite Hnone in Hcond. discriminate. }
    cbn [truthy_str negb]. split; [reflexivity|].
    unfold GuideLogin.login. destruct (generatePKCE random) as [v c]. run.
    rewrite requests_app. simpl. apply app_nil_r.
  - intros token r Htoken Hgateway H401. unfold run.
    rewrite (invokeGateway_pass _ _ _ _ _ _ _ token Htoken), Hgateway. cbv zeta.
    destruct (Z.eqb_spec (status r) 401) as [|_]; [contradiction|].
    assert (Hsent : forall c : GuideGateway.Completion,
               Session.requests
                 (snd (c, snd (emit (Fetch (GuideGateway.request JSON token prompt mode a)) w)))
               = (Session.requests w
                  ++ [GuideGateway.request JSON token prompt mode a])%list).
    { intros c. run. now rewrite requests_app. }
    destruct (ok r); [destruct (json r)|];
      (split; [reflexivity|]; split; [apply Hsent|];
       split; [left; reflexivity|]; split; reflexivity).
Qed.

(** X13.  [invokeGateway] puts no bound on its retries: on a 401 it
    refreshes and calls itself.  As long as the gateway keeps answering 401
    and every refresh returns a token that is still fresh, [n] passes send
    [n] gateway requests and [n] refresh requests and the call has not
    returned. *)
Theorem invokeGateway_retries_without_bound
    prompt mode random state (a : GuideGateway.Attempt)
    (r : Response jsval) (granted : Response CyberArkAuth.TokenJson)
    (d : CyberArkAuth.TokenData) (token : string) (e : Z) (n : nat) (w : World) :
  fst (Guide.getAccessToken (GuideGateway.token_clock a) w) <> Ok None ->
  GuideGateway.gateway a = Resolved r -> status r = 401 ->
  GuideGateway.refresh a = Resolved granted ->
  json granted = Some (CyberArkAuth.TokenObject d) ->
  CyberArkAuth.access_token d = Some token -> token <> "" ->
  CyberArkAuth.expires_in d = Some e ->
  GuideGateway.token_clock a < GuideGateway.refresh_clock a + e * 1000 ->
  let run := invokeGateway prompt mode random state (repeat a n) w in
  fst run = GuideGateway.Unfinished
  /\ List.length (Session.requests (snd run))
     = (List.length (Session.requests w) + 2 * n)%nat.
Proof.
  intros Husable Hgateway H401 Hrefresh Hjson Htoken Hne Hexpires Hfresh.
  revert w Husable. induction n as [|n IH]; intros w Husable run.
  - split; [reflexivity | cbn; lia].
  - unfold run. cbn [repeat].
    destruct (fst (Guide.getAccessToken (GuideGateway.token_clock a) w))
      as [[stored|]|err] eqn:Hstored.
    2:{ contradiction. }
    2:{ rewrite guide_getAccessToken_value in Hstored. discriminate. }
    rewrite (invokeGateway_pass _ _ _ _ _ _ _ stored Hstored).
    rewrite Hgateway, H401, Hrefresh. cbv zeta. cbn [Z.eqb Pos.eqb].
    rewrite (guide_refresh_run _ _ d _ _ Hjson).
    rewrite Htoken, Hexpires. cbn [fmap option_fmap option_map Number_toString ToString_opt].
    match goal with
    | |- context [invokeGateway _ _ _ _ (repeat a n) ?w3] =>
        specialize (IH w3); set (next := w3) in *
    end.
    assert (Hnext : fst (Guide.getAccessToken (GuideGateway.token_clock a) next)
                    <> Ok None).
    { rewrite guide_getAccessToken_value. unfold next. cbn [fst localStorage].
      rewrite lookup_insert_eq.
      rewrite !lookup_insert_ne by discriminate. rewrite lookup_insert_eq.
      rewrite (proj2 (truthy_str_Some token) Hne).
      cbn [negb orb Guide.ToString_null default from_option id].
      rewrite parseInt_Z_toString. cbn [ge].
      destruct (Z.leb_spec (GuideGateway.refresh_clock a + e * 1000)
                           (GuideGateway.token_clock a)); [lia | discriminate]. }
    destruct (IH Hnext) as [Hrun Hcount]. split; [exact Hrun|].
    rewrite Hcount. unfold next. rewrite requests_app. run.
    rewrite requests_app, !length_app. simpl. lia.
Qed.

End InvokeGateway.

(** X13, witness: the token ["T0"] is stored with the expiry 5000; the gateway
    answers 401 three times and each refresh, at clock 1000, returns ["T1"]
    for 3600 seconds. *)
Lemma invokeGateway_retries_without_bound_witness :
  let a := {| GuideGateway.token_clock := 1000;
              GuideGateway.id_clock := 1000;
              GuideGateway.id_suffix := "k3j2h1g0f";
              GuideGateway.gateway := Scenario.answered 401 None;
              GuideGateway.refresh := Scenario.granted;
              GuideGateway.refresh_clock := 1000 |} in
  let w := Scenario.signed "T0" "5000" in
  let run := GuideGateway.invokeGateway JsonText.JSON "Q" "council" [] "s1"
               [a; a; a] w in
  fst run = GuideGateway.Unfinished
  /\ List.length (Session.requests (snd run)) = 6%nat.
Proof.
  intros a w run.
  exact (invokeGateway_retries_without_bound JsonText.JSON "Q" "council" [] "s1" a
           {| status := 401; text := ""; json := None |}
           {| status := 200;
              text := "";
              json := Some (CyberArkAuth.TokenObject
                              {| CyberArkAuth.access_token := Some "T1";
                                 CyberArkAuth.refresh_token := Some "R1";
                                 CyberArkAuth.expires_in := Some 3600 |}) |}
           {| CyberArkAuth.access_token := Some "T1";
              CyberArkAuth.refresh_token := Some "R1";
              CyberArkAuth.expires_in := Some 3600 |}
           "T1" 3600 3 w
           ltac:(vm_compute; discriminate) eq_refl eq_refl eq_refl eq_refl eq_refl
           ltac:(discriminate) eq_refl ltac:(vm_compute; reflexivity)).
Defined.

Lemma isAuthenticated_value (now : Z) (w : World) :
  CyberArkAuth.isAuthenticated now w =
  (Ok (truthy_str (Session.accessToken w)
       && truthy_str (localStorage w !! "cyberark_token_expiry")
       && lt (Some now)
             (parseInt (default "" (localStorage w !! "cyberark_token_expiry")))),
   w).
Proof.
  unfold CyberArkAuth.isAuthenticated, Session.accessToken. run.
  destruct (truthy_str (localStorage w !! "cyberark_access_token"));
    cbn [negb andb]; [|reflexivity].
  destruct (truthy_str (localStorage w !! "cyberark_token_expiry")); reflexivity.
Qed.

Lemma Z_toString_nonempty (z : Z) : Z_toString z <> "".
Proof.
  intros Hempty. pose proof (parseInt_Z_toString z) as Hp.
  rewrite Hempty in Hp. discriminate.
Qed.

(** [isAuthenticated()] once a token and an expiry written by [storeTokens]
    are in place. *)
Lemma isAuthenticated_stored (later expiry : Z) (token : string) (w : World) :
  Session.accessToken w = Some token -> token <> "" ->
  localStorage w !! "cyberark_token_expiry" = Some (Z_toString expiry) ->
  CyberArkAuth.isAuthenticated later w = (Ok (later <? expiry), w).
Proof.
  intros Htoken Hne Hexpiry. rewrite isAuthenticated_value, Htoken, Hexpiry.
  rewrite (proj2 (truthy_str_Some token) Hne).
  rewrite (proj2 (truthy_str_Some _) (Z_toString_nonempty expiry)).
  cbn [andb default from_option id]. now rewrite parseInt_Z_toString.
Qed.

(* ===================================================================== *)
(** ** Signing in with the shipped class                                 *)
(* ===================================================================== *)

Section SignIn.
Variable env : CyberArkAuth.Config.
Variable JSON : JSON_api.

(** X14.  The sign-in round trip of the shipped class: after [login()], a
    callback that carries no [error], a non-empty code and the state
    [login()] generated passes the state check whatever was stored before;
    when the backend answers 2xx with an access token and [expires_in], the
    call returns that token, has sent exactly one request (the exchange of
    that code), leaves no pending state, [getAccessToken()] returns the
    token, and [isAuthenticated()] answers true exactly at the clock readings
    before [now + expires_in * 1000]. *)
Theorem login_then_callback_signs_in
    (draw : nat -> N) (search : list (string * string))
    (r : Response CyberArkAuth.TokenJson) (d : CyberArkAuth.TokenData)
    (code token : string) (e now : Z) (w : World) :
  truthy_str (URLSearchParams_get search "error") = false ->
  URLSearchParams_get search "code" = Some code -> code <> "" ->
  URLSearchParams_get search "state"
  = Some (CyberArkAuth.generateRandomString draw 32) ->
  ok r = true -> json r = Some (CyberArkAuth.TokenObject d) ->
  CyberArkAuth.access_token d = Some token -> token <> "" ->
  CyberArkAuth.expires_in d = Some e ->
  let w1 := snd (CyberArkAuth.login env draw w) in
  let run := CyberArkAuth.handleCallback env JSON search (Resolved r) now w1 in
  fst run = Ok (Some token)
  /\ Session.requests (snd run)
     = (Session.requests w
        ++ [CyberArkAuth.exchange_request env (stringify JSON) code])%list
  /\ Session.pendingState (snd run) = None
  /\ CyberArkAuth.getAccessToken (snd run) = (Ok (Some token), snd run)
  /\ forall later,
       CyberArkAuth.isAuthenticated later (snd run)
       = (Ok (later <? now + e * 1000), snd run).
Proof.
  intros Herr Hcode Hne Hstate Hok Hjson Htoken Htne Hexp w1 run.
  assert (Hw1 : w1 =
                {| localStorage := localStorage w;
                   sessionStorage :=
                     <["oauth_state" := CyberArkAuth.generateRandomString draw 32]>
                       (sessionStorage w);
                   effects :=
                     effects w
                     ++ [Navigate (CyberArkAuth.authEndpoint env)
                           [ ("client_id", CyberArkAuth.clientId env);
                             ("redirect_uri", CyberArkAuth.redirectUri env);
                             ("response_type", "code");
                             ("scope", "openid profile email");
                             ("state", CyberArkAuth.generateRandomString draw 32) ]] |}).
  { unfold w1, CyberArkAuth.login. run. reflexivity. }
  assert (Hpending : URLSearchParams_get search "state" = Session.pendingState w1).
  { rewrite Hstate, Hw1. unfold Session.pendingState. cbn [sessionStorage].
    symmetry. apply lookup_insert_eq. }
  unfold run.
  rewrite (handleCallback_exchange env JSON search _ now w1 code Herr Hcode Hne Hpending).
  rewrite Hok, Hjson. cbn [fst snd]. unfold Outcome.signed_in, Outcome.sent.
  rewrite Htoken, Hexp.
  cbn [fmap option_fmap option_map Number_toString ToString_opt localStorage
       sessionStorage effects].
  split; [reflexivity|]. split.
  { rewrite Hw1. unfold Session.requests. cbn [effects].
    rewrite !flat_map_app. simpl. now rewrite app_nil_r. }
  split; [apply lookup_delete_eq|]. split.
  { unfold CyberArkAuth.getAccessToken. run.
    rewrite lookup_insert_ne by discriminate. now rewrite lookup_insert_eq. }
  intros later. apply (isAuthenticated_stored later _ token).
  - unfold Session.accessToken. cbn [localStorage].
    rewrite lookup_insert_ne by discriminate. apply lookup_insert_eq.
  - exact Htne.
  - cbn [localStorage]. apply lookup_insert_eq.
Qed.

(** X15.  [handleCallback()] does not validate the body of a 2xx answer.
    When the body has no [access_token], the call still succeeds, returns
    [undefined] and stores the text ["undefined"] as the access token, which
    [isAuthenticated()] accepts until the expiry.  When the body has no
    [expires_in], the call still succeeds and stores the text ["NaN"] as the
    expiry, so [isAuthenticated()] answers false at every clock reading
    although the sign-in succeeded. *)
Theorem handleCallback_incomplete_answer
    search answer now w (token : option string) (w' : World) :
  CyberArkAuth.handleCallback env JSON search answer now w = (Ok token, w') ->
  exists resp d,
    answer = Resolved resp
    /\ json resp = Some (CyberArkAuth.TokenObject d)
    /\ token = CyberArkAuth.access_token d
    /\ (CyberArkAuth.access_token d = None ->
        Session.accessToken w' = Some "undefined"
        /\ forall e later,
             CyberArkAuth.expires_in d = Some e ->
             CyberArkAuth.isAuthenticated later w'
             = (Ok (later <? now + e * 1000), w'))
    /\ (CyberArkAuth.expires_in d = None ->
        localStorage w' !! "cyberark_token_expiry" = Some "NaN"
        /\ Session.expiryTimestampMillis w' = None
        /\ forall later, CyberArkAuth.isAuthenticated later w' = (Ok false, w')).
Proof.
  intros Hrun.
  destruct (handleCallback_outcome _ _ _ _ _ _ _ _ Hrun)
    as [(e & [=] & _) | (code & d & resp & [= ->] & -> & Hjson & _ & _ & _ & ->)].
  exists resp, d. split; [reflexivity|]. split; [exact Hjson|].
  split; [reflexivity|].
  unfold Outcome.signed_in, Session.accessToken, Session.expiryTimestampMillis.
  split.
  - intros ->. cbn [ToString_opt localStorage]. split.
    + rewrite lookup_insert_ne by discriminate. apply lookup_insert_eq.
    + intros e later ->. apply (isAuthenticated_stored later _ "undefined").
      * unfold Session.accessToken. cbn [localStorage].
        rewrite lookup_insert_ne by discriminate. apply lookup_insert_eq.
      * discriminate.
      * cbn [localStorage]. apply lookup_insert_eq.
  - intros ->. cbn [fmap option_fmap option_map Number_toString localStorage].
    split; [apply lookup_insert_eq|]. split.
    + rewrite lookup_insert_eq. reflexivity.
    + intros later. rewrite isAuthenticated_value. cbn [localStorage].
      rewrite lookup_insert_eq. cbn [default from_option id].
      replace (parseInt "NaN") with (@None Z) by reflexivity.
      cbn [lt]. now rewrite !andb_false_r.
Qed.

End SignIn.

(** X14, witness: [login()] in a fresh browser, then the callback with
    [code=ABC] and the state it stored; the backend grants ["T1"] for 3600
    seconds at clock 1000. *)
Lemma login_then_callback_signs_in_witness :
  let state := "ABCDEFGHIJKLMNOPQRSTUVWXYZabcdef" in
  let w1 := snd (CyberArkAuth.login Scenario.env Scenario.draw Scenario.fresh) in
  let run := CyberArkAuth.handleCallback Scenario.env JsonText.JSON
               [("code", "ABC"); ("state", state)] Scenario.granted 1000 w1 in
  CyberArkAuth.generateRandomString Scenario.draw 32 = state
  /\ fst run = Ok (Some "T1")
  /\ CyberArkAuth.isAuthenticated 3600999 (snd run) = (Ok true, snd run)
  /\ CyberArkAuth.isAuthenticated 3601000 (snd run) = (Ok false, snd run).
Proof.
  intros state w1 run.
  destruct (login_then_callback_signs_in Scenario.env JsonText.JSON Scenario.draw
              [("code", "ABC"); ("state", state)]
              {| status := 200;
                 text := "";
                 json := Some (CyberArkAuth.TokenObject
                                 {| CyberArkAuth.access_token := Some "T1";
                                    CyberArkAuth.refresh_token := Some "R1";
                                    CyberArkAuth.expires_in := Some 3600 |}) |}
              {| CyberArkAuth.access_token := Some "T1";
                 CyberArkAuth.refresh_token := Some "R1";
                 CyberArkAuth.expires_in := Some 3600 |}
              "ABC" "T1" 3600 1000 Scenario.fresh)
    as (Hrun & _ & _ & _ & Hauth).
  - reflexivity.
  - reflexivity.
  - discriminate.
  - reflexivity.
  - reflexivity.
  - reflexivity.
  - reflexivity.
  - discriminate.
  - reflexivity.
  - split; [reflexivity|]. split; [exact Hrun|].
    split; [exact (Hauth 3600999) | exact (Hauth 3601000)].
Defined.

(** X15, witness: the token endpoint answers [{access_token: "T1"}]. *)
Lemma handleCallback_incomplete_answer_witness :
  let answer :=
    Resolved {| status := 200;
                text := "";
                json := Some (CyberArkAuth.TokenObject
                                {| CyberArkAuth.access_token := Some "T1";
                                   CyberArkAuth.refresh_token := None;
                                   CyberArkAuth.expires_in := None |}) |} in
  let run := CyberArkAuth.handleCallback Scenario.env JsonText.JSON
               [("code", "ABC"); ("state", "S1")] answer 1000
               (Scenario.pending "S1") in
  fst run = Ok (Some "T1")
  /\ localStorage (snd run) !! "cyberark_token_expiry" = Some "NaN"
  /\ CyberArkAuth.isAuthenticated 1001 (snd run) = (Ok false, snd run).
Proof.
  intros answer run.
  destruct (handleCallback_incomplete_answer Scenario.env JsonText.JSON
              [("code", "ABC"); ("state", "S1")] answer 1000
              (Scenario.pending "S1") (Some "T1") (snd run))
    as (resp & d & Hanswer & Hjson & _ & _ & Hexpiry).
  - reflexivity.
  - injection Hanswer as <-. injection Hjson as <-.
    destruct (Hexpiry eq_refl) as (Hnan & _ & Hnever).
    split; [reflexivity|]. split; [exact Hnan | exact (Hnever 1001)].
Defined.

(* ===================================================================== *)
(** ** The tools over the gateway, and the callback page                 *)
(* ===================================================================== *)

Section Tools.
Variable env : CyberArkAuth.Config.
Variable JSON : JSON_api.

(** A 2xx answer whose body is an object without a truthy [error]. *)
Lemma callGateway_result method params now draw (r : Response jsval) w
    (token : string) (fields : list (string * jsval)) :
  Session.accessToken w = Some token -> token <> "" ->
  ok r = true -> json r = Some (JObj fields) ->
  truthy (own fields "error") = false ->
  ApiGateway.callGateway env JSON method params now draw (Resolved r) w
  = (Ok (JObj fields), Outcome.posted JSON w token method params now).
Proof.
  intros Htoken Hne Hok Hjson Herror.
  rewrite (callGateway_authenticated env JSON _ _ now draw _ w token Htoken Hne).
  cbv zeta. rewrite Hok, Hjson.
  destruct (Z.eqb_spec (status r) 401) as [H401|_].
  { unfold ok in Hok. rewrite H401 in Hok. discriminate. }
  unfold Outcome.rpc_outcome. cbn [get]. now rewrite Herror.
Qed.

(** X16.  [healthCheck()] counts the tools: with a token stored and a 2xx
    answer whose body is an object without a truthy [error] and whose
    [result] is an object, it sends the one [tools/list] request, touches no
    storage and reports status ["healthy"] with the length of
    [result.tools] when that is an array, and with 0 when [result.tools] is
    missing or [null]. *)
Theorem healthCheck_counts_tools now draw (r : Response jsval) w
    (token : string) (fields catalog : list (string * jsval)) :
  Session.accessToken w = Some token -> token <> "" ->
  ok r = true -> json r = Some (JObj fields) ->
  truthy (own fields "error") = false ->
  own fields "result" = JObj catalog ->
  let run := ApiGateway.healthCheck env JSON now draw (Resolved r) w in
  snd run = Outcome.posted JSON w token "tools/list" (JObj []) now
  /\ (forall listed, own catalog "tools" = JArr listed ->
        fst run = Ok (ApiGateway.healthy (JNum (Z.of_nat (List.length listed)))))
  /\ (nullish (own catalog "tools") = true ->
        fst run = Ok (ApiGateway.healthy (JNum 0))).
Proof.
  intros Htoken Hne Hok Hjson Herror Hresult run.
  unfold run, ApiGateway.healthCheck, ApiGateway.listTools, ApiGateway.tool_count,
    try_catch, bind.
  rewrite (callGateway_result _ _ now draw r w token fields) by assumption.
  unfold lift, ret. cbn [get]. rewrite Hresult. cbn [get fst snd].
  split; [|split].
  - destruct (nullish (own catalog "tools")); reflexivity.
  - intros listed ->. cbn [nullish get_opt get String.eqb Ascii.eqb Bool.eqb].
    unfold or_else. cbn [truthy].
    destruct (Z.eqb_spec (Z.of_nat (List.length listed)) 0) as [->|_]; reflexivity.
  - intros ->. reflexivity.
Qed.

(** X17.  [runCouncil] and [runDxO] end to end: with a token stored and a
    2xx answer whose body is an object without a truthy [error], whose
    [result.content[0].text] is truthy and parses to a value other than
    [null], each returns [parsed.output || parsed] and leaves the state in
    which one [tools/call] request was sent; the two differ only in the tool
    they name, [deep-research-lambda___invokeCouncil] and
    [deep-research-lambda___invokeDxO], and both pass [{question}] as the
    arguments. *)
Theorem run_tools_end_to_end question now draw (r : Response jsval) w
    (token : string) (fields : list (string * jsval))
    (content parsed : jsval) :
  Session.accessToken w = Some token -> token <> "" ->
  ok r = true -> json r = Some (JObj fields) ->
  truthy (own fields "error") = false ->
  get (own fields "result") "content" = Ok content ->
  truthy (ApiGateway.lambda_text content) = true ->
  parse JSON (ToString (ApiGateway.lambda_text content)) = Some parsed ->
  nullish parsed = false ->
  let expected := or_else (get_opt parsed "output") parsed in
  let call name :=
    Outcome.posted JSON w token "tools/call"
      (JObj [("name", JStr name);
             ("arguments", JObj [("question", JStr question)])]) now in
  ApiGateway.runCouncil env JSON question now draw (Resolved r) w
  = (Ok expected, call "deep-research-lambda___invokeCouncil")
  /\ ApiGateway.runDxO env JSON question now draw (Resolved r) w
     = (Ok expected, call "deep-research-lambda___invokeDxO").
Proof.
  intros Htoken Hne Hok Hjson Herror Hcontent Htext Hparse Hnull expected call.
  assert (Hunwrap : forall x, ApiGateway.parseLambdaResponse JSON
                                (own fields "result") x
                              = (Ok expected, x)).
  { intros x. unfold ApiGateway.parseLambdaResponse. run.
    rewrite Hcontent, Htext, Hparse. unfold expected, or_else, get_opt.
    destruct (get_not_nullish parsed "output" Hnull) as [out ->].
    destruct (truthy out); reflexivity. }
  split.
  - rewrite runCouncil_unwraps. unfold ApiGateway.callTool, bind.
    rewrite (callGateway_result _ _ now draw r w token fields) by assumption.
    unfold lift. cbn [get]. apply Hunwrap.
  - rewrite runDxO_unwraps. unfold ApiGateway.callTool, bind.
    rewrite (callGateway_result _ _ now draw r w token fields) by assumption.
    unfold lift. cbn [get]. apply Hunwrap.
Qed.

(** X18.  The callback page ends in one of two states.  Either its status
    is ["success"], no error is shown and the redirect to [/] is scheduled
    after 1000 ms, and then the pending state is cleared and an access token
    is stored; or its status is ["error"], no redirect is scheduled, the
    message shown is that of the error [handleCallback()] raised, and both
    storages are as they were.  With no [error] parameter, a non-empty code
    and a state that differs from the pending one, the page shows ["Invalid
    state parameter - possible CSRF attack"] and the browser state is
    unchanged. *)
Theorem callback_page_outcome search answer now w :
  let page := CallbackPage.handleCallback env JSON search answer now w in
  let w' := snd page in
  ((CallbackPage.status (fst page) = "success"
    /\ CallbackPage.error (fst page) = None
    /\ CallbackPage.timer (fst page) = Some (1000, "/")
    /\ Session.pendingState w' = None
    /\ exists token, Session.accessToken w' = Some token)
   \/ (CallbackPage.status (fst page) = "error"
       /\ CallbackPage.timer (fst page) = None
       /\ (exists e,
             fst (CyberArkAuth.handleCallback env JSON search answer now w) = Throw e
             /\ CallbackPage.error (fst page) = Some (message e))
       /\ localStorage w' = localStorage w
       /\ sessionStorage w' = sessionStorage w))
  /\ (truthy_str (URLSearchParams_get search "error") = false ->
      truthy_str (URLSearchParams_get search "code") = true ->
      URLSearchParams_get search "state" <> Session.pendingState w ->
      page = ({| CallbackPage.status := "error";
                 CallbackPage.error :=
                   Some "Invalid state parameter - possible CSRF attack";
                 CallbackPage.timer := None |}, w)).
Proof.
  intros page w'. split.
  - unfold w', page, CallbackPage.handleCallback.
    destruct (CyberArkAuth.handleCallback env JSON search answer now w)
      as [r w1] eqn:Hrun.
    destruct (handleCallback_outcome _ _ _ _ _ _ _ _ Hrun)
      as [(e & -> & Hss & Hls)
         | (code & d & resp & -> & _ & _ & _ & _ & _ & ->)]; cbn [fst snd].
    + right. repeat split; try assumption. exists e. split; reflexivity.
    + left. repeat split.
      * apply lookup_delete_eq.
      * eexists. unfold Session.accessToken, Outcome.signed_in. cbn [localStorage].
        rewrite lookup_insert_ne by discriminate. apply lookup_insert_eq.
  - intros Herr Hcode Hstate. unfold page, CallbackPage.handleCallback.
    now rewrite handleCallback_state_mismatch.
Qed.

End Tools.

(** X16, witness: the gateway lists two tools. *)
Lemma healthCheck_counts_tools_witness :
  let catalog := [("tools", JArr [JObj [("name", JStr "a")]; JObj [("name", JStr "b")]])] in
  let fields := [("jsonrpc", JStr "2.0"); ("result", JObj catalog)] in
  fst (ApiGateway.healthCheck Scenario.env JsonText.JSON 1000 Scenario.draw
         (Scenario.answered 200 (Some (JObj fields)))
         (Scenario.signed "T1" "3601000"))
  = Ok (ApiGateway.healthy (JNum 2)).
Proof.
  intros catalog fields.
  destruct (healthCheck_counts_tools Scenario.env JsonText.JSON 1000 Scenario.draw
              {| status := 200; text := ""; json := Some (JObj fields) |}
              (Scenario.signed "T1" "3601000") "T1" fields catalog)
    as (_ & Hcount & _).
  - reflexivity.
  - discriminate.
  - reflexivity.
  - reflexivity.
  - reflexivity.
  - reflexivity.
  - exact (Hcount _ eq_refl).
Defined.

(** X17, witness: the gateway wraps the council payload under [output]. *)
Lemma run_tools_end_to_end_witness :
  fst (ApiGateway.runCouncil Scenario.env JsonText.JSON "X" 2000 Scenario.draw
         (Scenario.wrapped Scenario.council) (Scenario.signed "T1" "3601000"))
  = Ok Scenario.council
  /\ fst (ApiGateway.runDxO Scenario.env JsonText.JSON "X" 2000 Scenario.draw
            (Scenario.wrapped Scenario.council) (Scenario.signed "T1" "3601000"))
     = Ok Scenario.council.
Proof.
  destruct (run_tools_end_to_end Scenario.env JsonText.JSON "X" 2000 Scenario.draw
              {| status := 200;
                 text := "";
                 json :=
                   Some (JObj [ ("jsonrpc", JStr "2.0");
                                ("id", JStr "tools/call-2000");
                                ("result",
                                 JObj [("content",
                                        JArr [JObj [ ("type", JStr "text");
                                                     ("text",
                                                      JStr (JsonText.stringify
                                                              (JObj [("output", Scenario.council)]))) ]])]) ]) |}
              (Scenario.signed "T1" "3601000") "T1"
              [ ("jsonrpc", JStr "2.0");
                ("id", JStr "tools/call-2000");
                ("result",
                 JObj [("content",
                        JArr [JObj [ ("type", JStr "text");
                                     ("text",
                                      JStr (JsonText.stringify
                                              (JObj [("output", Scenario.council)]))) ]])]) ]
              (JArr [JObj [ ("type", JStr "text");
                            ("text",
                             JStr (JsonText.stringify
                                     (JObj [("output", Scenario.council)]))) ]])
              (JObj [("output", Scenario.council)]))
    as [Hcouncil Hdxo].
  - reflexivity.
  - discriminate.
  - reflexivity.
  - reflexivity.
  - reflexivity.
  - reflexivity.
  - reflexivity.
  - vm_compute. reflexivity.
  - reflexivity.
  - split.
    + exact (f_equal fst Hcouncil).
    + exact (f_equal fst Hdxo).
Defined.

(* ===================================================================== *)
(** ** App.jsx                                                           *)
(* ===================================================================== *)

Lemma isAuthenticated_true_iff (now : Z) (w : World) :
  fst (CyberArkAuth.isAuthenticated now w) = Ok true
  <-> Session.present (Session.accessToken w)
      /\ exists e, Session.expiryTimestampMillis w = Some e /\ now < e.
Proof.
  rewrite isAuthenticated_value. cbn [fst].
  unfold Session.present, Session.expiryTimestampMillis.
  destruct (truthy_str (Session.accessToken w)); cbn [andb].
  2:{ split; [discriminate | intros [? _]; discriminate]. }
  destruct (localStorage w !! "cyberark_token_expiry") as [expiry|];
    cbn [truthy_str mbind option_bind default from_option id andb].
  2:{ split; [discriminate | intros [_ [e [? _]]]; discriminate]. }
  destruct (String.eqb_spec expiry "") as [->|_]; cbn [negb andb].
  { split; [discriminate | intros [_ [e [? _]]]; discriminate]. }
  destruct (parseInt expiry) as [x|]; cbn [lt].
  - split.
    + intros [= Hlt]. split; [reflexivity|]. exists x.
      split; [reflexivity | now apply Z.ltb_lt].
    + intros [_ [e [[= <-] Hlt]]]. f_equal. now apply Z.ltb_lt.
  - split; [discriminate | intros [_ [e [? _]]]; discriminate].
Qed.

Lemma shown_message_nonempty (err : exn) : App.shown_message err <> "".
Proof.
  unfold App.shown_message.
  destruct (String.eqb_spec (message err) ""); [discriminate | assumption].
Qed.

Section Application.
Variable env : CyberArkAuth.Config.
Variable JSON : JSON_api.

(** X19.  What the application renders follows the stored session.  Before
    the check on mount it renders the loading view.  The check changes
    nothing in the browser; after it the application renders the callback
    page exactly on the path [/callback]; the main view (without error,
    spinner or result) exactly when the path is another one, an access token
    is present and the clock is before the stored expiry; and the login view
    exactly when the path is another one and [isAuthenticated()] answered
    false.  [handleLogout] leaves the browser as [logout()] does and, once
    the check has run and off the callback path, the login view is
    rendered. *)
Theorem app_view_follows_session (pathname : string) (now : Z) (s : App.State) (w : World) :
  let mounted := App.checkAuth now App.initial w in
  let left := App.handleLogout s w in
  snd mounted = w
  /\ App.render pathname App.initial = App.LoadingView
  /\ (App.render pathname (fst mounted) = App.CallbackView <-> pathname = "/callback")
  /\ (App.render pathname (fst mounted) = App.MainView None false None
      <-> pathname <> "/callback"
          /\ Session.present (Session.accessToken w)
          /\ exists e, Session.expiryTimestampMillis w = Some e /\ now < e)
  /\ (App.render pathname (fst mounted) = App.LoginView
      <-> pathname <> "/callback"
          /\ fst (CyberArkAuth.isAuthenticated now w) = Ok false)
  /\ snd left = snd (CyberArkAuth.logout w)
  /\ (App.isCheckingAuth s = false -> pathname <> "/callback" ->
      App.render pathname (fst left) = App.LoginView).
Proof.
  intros mounted left.
  pose proof (isAuthenticated_true_iff now w) as Hiff.
  unfold mounted, left, App.checkAuth, App.handleLogout, App.render.
  rewrite isAuthenticated_value in *. cbn [fst snd] in *.
  set (b := truthy_str _ && _ && _) in *.
  cbn [App.isCheckingAuth App.isAuthenticated App.initial App.error App.loading
       App.result truthy truthy_str andb negb].
  split; [reflexivity|]. split; [reflexivity|].
  destruct (String.eqb_spec pathname "/callback") as [Hpath|Hpath].
  - split; [tauto|]. split; [split; [discriminate | tauto]|].
    split; [split; [discriminate | tauto]|]. split; [reflexivity|].
    intros -> Hnot. contradiction.
  - destruct b; cbn [negb].
    + split; [split; [discriminate | contradiction]|].
      split; [split; [intros _; split; [exact Hpath | now apply Hiff] | reflexivity]|].
      split; [split; [discriminate | intros [_ ?]; discriminate]|].
      split; [reflexivity|]. intros -> _. reflexivity.
    + split; [split; [discriminate | contradiction]|].
      split.
      { split; [discriminate|]. intros [_ Hvalid]. apply Hiff in Hvalid.
        discriminate. }
      split; [split; [intros _; split; [exact Hpath | reflexivity] | reflexivity]|].
      split; [reflexivity|]. intros -> _. reflexivity.
Qed.

(** X20.  [handleSubmit] always settles with the spinner off, the mode and
    the authenticated flag as they were, and the browser as the tool call
    left it ([runCouncil] when the mode is ["council"], [runDxO] for every
    other mode).  Either the call returned and its value is the result, with
    no error; or it failed, the result is [null] and the error shown is the
    error's message, or ["An error occurred"] when that is empty: the
    message shown is never empty, and the main view then shows it without
    spinner or result.  With no token stored the message is ["Authentication
    required"] and [login()] ran; on a 401 the message is ["Session expired,
    please log in again"], the stored token is gone and a fresh pending state
    is stored, while the component's authenticated flag is unchanged. *)
Theorem handleSubmit_settles (question : string) (now : Z) (draw : nat -> N)
    (answer : Fetched jsval) (s : App.State) (w : World) :
  let tool := if String.eqb (App.mode s) "council"
              then ApiGateway.runCouncil env JSON question now draw answer w
              else ApiGateway.runDxO env JSON question now draw answer w in
  let submitted := App.handleSubmit env JSON question now draw answer s w in
  let s' := fst submitted in
  snd submitted = snd tool
  /\ App.loading s' = false
  /\ App.mode s' = App.mode s
  /\ App.isAuthenticated s' = App.isAuthenticated s
  /\ ((fst tool = Ok (App.result s') /\ App.error s' = None)
      \/ (exists err, fst tool = Throw err
                      /\ App.error s' = Some (App.shown_message err)
                      /\ App.result s' = JNull))
  /\ (forall shown, App.error s' = Some shown -> shown <> "")
  /\ (forall pathname,
        App.isCheckingAuth s = false -> App.isAuthenticated s = true ->
        pathname <> "/callback" ->
        App.render pathname s'
        = App.MainView (App.error s') false
            (if truthy (App.result s') then Some (App.result s') else None))
  /\ (truthy_str (Session.accessToken w) = false ->
      App.error s' = Some "Authentication required"
      /\ snd submitted = snd (CyberArkAuth.login env draw w))
  /\ (forall token r,
        Session.accessToken w = Some token -> token <> "" ->
        answer = Resolved r -> status r = 401 ->
        App.error s' = Some "Session expired, please log in again"
        /\ Session.accessToken (snd submitted) = None
        /\ Session.pendingState (snd submitted)
           = Some (CyberArkAuth.generateRandomString draw 32)).
Proof.
  intros tool submitted s'.
  assert (Hsubmitted :
            submitted =
            match tool with
            | (Ok data, w') =>
                ({| App.mode := App.mode s; App.loading := false;
                    App.error := None; App.result := data;
                    App.isAuthenticated := App.isAuthenticated s;
                    App.isCheckingAuth := App.isCheckingAuth s |}, w')
            | (Throw err, w') =>
                ({| App.mode := App.mode s; App.loading := false;
                    App.error := Some (App.shown_message err);
                    App.result := JNull;
                    App.isAuthenticated := App.isAuthenticated s;
                    App.isCheckingAuth := App.isCheckingAuth s |}, w')
            end).
  { unfold submitted, tool, App.handleSubmit.
    destruct (String.eqb (App.mode s) "council"); reflexivity. }
  assert (Hanonymous :
            truthy_str (Session.accessToken w) = false ->
            tool = (Throw AuthenticationRequired,
                    snd (CyberArkAuth.login env draw w))).
  { intros Hnone. unfold tool.
    rewrite runCouncil_unwraps, runDxO_unwraps.
    unfold ApiGateway.callTool, bind.
    rewrite !callGateway_unauthenticated by exact Hnone.
    destruct (String.eqb (App.mode s) "council"); reflexivity. }
  assert (Hexpired :
            forall token r,
              Session.accessToken w = Some token -> token <> "" ->
              answer = Resolved r -> status r = 401 ->
              fst tool = Throw SessionExpired
              /\ Session.accessToken (snd tool) = None
              /\ Session.pendingState (snd tool)
                 = Some (CyberArkAuth.generateRandomString draw 32)).
  { intros token r Htoken Hne -> H401. unfold tool.
    rewrite runCouncil_unwraps, runDxO_unwraps.
    unfold ApiGateway.callTool, bind.
    rewrite !(callGateway_authenticated env JSON _ _ now draw _ w token Htoken Hne).
    cbv zeta. rewrite H401. cbn [Z.eqb Pos.eqb].
    unfold Session.accessToken, Session.pendingState, CyberArkAuth.login,
      Outcome.posted.
    destruct (String.eqb (App.mode s) "council"); run;
      (split; [reflexivity|]; split;
       [rewrite lookup_delete_ne by discriminate; apply lookup_delete_eq
       | apply lookup_insert_eq]). }
  unfold s'. rewrite Hsubmitted. clear Hsubmitted.
  destruct tool as [[data|err] w1];
    cbn [fst snd App.loading App.mode App.isAuthenticated App.error App.result]
    in *.
  - split; [reflexivity|]. split; [reflexivity|]. split; [reflexivity|].
    split; [reflexivity|]. split; [left; split; reflexivity|].
    split; [discriminate|]. split.
    { intros pathname Hchecked Hauth Hpath. unfold App.render.
      cbn [App.isCheckingAuth App.isAuthenticated App.error App.loading App.result].
      rewrite Hchecked, Hauth.
      destruct (String.eqb_spec pathname "/callback"); [contradiction|].
      cbn [negb truthy_str]. now rewrite andb_true_r. }
    split.
    { intros Hnone. specialize (Hanonymous Hnone). discriminate. }
    intros token r Htoken Hne Hanswer H401.
    destruct (Hexpired token r Htoken Hne Hanswer H401) as [? _]. discriminate.
  - split; [reflexivity|]. split; [reflexivity|]. split; [reflexivity|].
    split; [reflexivity|]. split; [right; exists err; repeat split|].
    split; [intros shown [= <-]; apply shown_message_nonempty|]. split.
    { intros pathname Hchecked Hauth Hpath. unfold App.render.
      cbn [App.isCheckingAuth App.isAuthenticated App.error App.loading App.result].
      rewrite Hchecked, Hauth.
      destruct (String.eqb_spec pathname "/callback"); [contradiction|].
      rewrite (proj2 (truthy_str_Some _) (shown_message_nonempty err)).
      reflexivity. }
    split.
    { intros Hnone. specialize (Hanonymous Hnone).
      injection Hanonymous as -> ->. split; reflexivity. }
    intros token r Htoken Hne Hanswer H401.
    destruct (Hexpired token r Htoken Hne Hanswer H401) as ([= ->] & Hgone & Hstate).
    split; [reflexivity|]. split; assumption.
Qed.

End Application.
